(** * tasmotadevicecontroller: the request/response contract layer

    A shallow embedding of [tasmotadevicecontroller/__init__.py]: the
    [TasmotaDevice] class, its transport method [send_raw_request] and the
    typed wrapper methods, together with the properties of the
    specification that concern them.

    Python values are embedded as the tree [json] (what [resp.json()] can
    return), a dict as an association list in insertion order, the network
    as a function from requests to outcomes, and every coroutine as a
    computation in the monad [Net], which threads the log of the requests
    sent so far and either returns a value or raises an exception. *)

From Stdlib Require Import ZArith List String Ascii Bool Lia.
From Stdlib Require Import DecimalString SpecFloat.
From Stdlib Require DecimalPos DecimalZ.
Import ListNotations.

Local Open Scope string_scope.
Local Open Scope Z_scope.

(** ** Python values *)

Module Py.

(** The values [json.loads] produces.  [JNull] is Python's [None]; a dict
    keeps its keys in insertion order. *)
#[local] Unset Elimination Schemes.
Inductive json : Type :=
  | JNull
  | JBool (b : bool)
  | JInt (z : Z)
  | JFloat (f : spec_float)
  | JStr (s : string)
  | JList (l : list json)
  | JDict (d : list (string * json)).
#[local] Set Elimination Schemes.

Definition dict : Type := list (string * json).

(** [key in d], as a lookup that tells absence from a stored [None]. *)
Fixpoint lookup (d : dict) (k : string) : option json :=
  match d with
  | [] => None
  | (k', v) :: d' => if String.eqb k' k then Some v else lookup d' k
  end.

(** [d.get(k)]: the stored value, [None] when the key is absent. *)
Definition get (d : dict) (k : string) : json :=
  match lookup d k with
  | Some v => v
  | None => JNull
  end.

(** [x is None] *)
Definition is_None (x : json) : bool :=
  match x with
  | JNull => true
  | _ => false
  end.

(** The exact value of a float against an integer: Python compares a
    float with an int without rounding, and NaN and the infinities equal
    no integer. *)
Definition float_eq_int (f : spec_float) (v : Z) : bool :=
  match f with
  | S754_zero _ => v =? 0
  | S754_finite s m e =>
      let n := if s then Z.neg m else Z.pos m in
      if 0 <=? e then n * 2 ^ e =? v else n =? v * 2 ^ (- e)
  | S754_infinity _ => false
  | S754_nan => false
  end.

(** [x == v] for an int [v]: [bool] is a subclass of [int] ([True == 1]),
    and a float is compared by value. *)
Definition eq_int (x : json) (v : Z) : bool :=
  match x with
  | JInt z => z =? v
  | JBool b => (if b then 1 else 0) =? v
  | JFloat f => float_eq_int f v
  | _ => false
  end.

(** [x == s] for a str [s] *)
Definition eq_str (x : json) (s : string) : bool :=
  match x with
  | JStr t => String.eqb t s
  | _ => false
  end.

(** [needle in hay] on two strs *)
Fixpoint str_in (needle hay : string) : bool :=
  String.prefix needle hay ||
  match hay with
  | EmptyString => false
  | String _ hay' => str_in needle hay'
  end.

(** [s.startswith(p)] *)
Definition startswith (s p : string) : bool := String.prefix p s.

(** [s.rstrip("/")]: every trailing slash is removed. *)
Fixpoint rstrip_slash (s : string) : string :=
  match s with
  | EmptyString => EmptyString
  | String c s' =>
      match rstrip_slash s' with
      | EmptyString => if Ascii.eqb c "/" then EmptyString else String c EmptyString
      | r => String c r
      end
  end.

(** [str(n)] for an int *)
Definition str_int (n : Z) : string := NilZero.string_of_int (Z.to_int n).

(** [len(s)] *)
Definition len (s : string) : Z := Z.of_nat (String.length s).

End Py.

Import Py.

(** ** Exceptions *)

(** What the transport's HTTP client raises when no response arrives:
    [asyncio.TimeoutError] when the total timeout expires, an instance of a
    subclass of [aiohttp.ClientError] otherwise, with its text.  Both are
    subclasses of [Exception].  A timeout is no builtin [ConnectionError];
    of the client errors a few classes derive from it as well, which
    [builtin_connection_error] records. *)
Inductive net_failure : Type :=
  | TimeoutError
  | ClientError (text : string) (builtin_connection_error : bool).

(** The text an exception is built with: a literal, or the f-string
    [f"{prefix}{v}"] over a reply, whose rendering is left to [str]. *)
Inductive message : Type :=
  | Text (s : string)
  | Fstr (prefix : string) (v : json).

(** The exceptions that leave a method of the class.  The first four are
    the documented kinds; [HttpClientError] is an exception of the HTTP
    client passing through, [PyError] any other builtin exception, named
    by its class. *)
Inductive exn : Type :=
  | ValueError (msg : message)
  | CommandError (msg : message)
  | ConnectionError (msg : message)
  | AuthenticationError (msg : message)
  | HttpClientError (e : net_failure)
  | PyError (cls msg : string).

(** [str(e)], given the rendering [repr] of a reply inside an f-string. *)
Definition str_message (repr : json -> string) (m : message) : string :=
  match m with
  | Text s => s
  | Fstr prefix v => prefix ++ repr v
  end.

Definition str_exn (repr : json -> string) (e : exn) : string :=
  match e with
  | ValueError m | CommandError m | ConnectionError m | AuthenticationError m =>
      str_message repr m
  | HttpClientError TimeoutError => ""
  | HttpClientError (ClientError t _) => t
  | PyError _ m => m
  end.

Definition is_ValueError (e : exn) : bool :=
  match e with ValueError _ => true | _ => false end.
Definition is_CommandError (e : exn) : bool :=
  match e with CommandError _ => true | _ => false end.
Definition is_ConnectionError (e : exn) : bool :=
  match e with
  | ConnectionError _ => true
  | HttpClientError (ClientError _ b) => b
  | _ => false
  end.
Definition is_AuthenticationError (e : exn) : bool :=
  match e with AuthenticationError _ => true | _ => false end.

(** One of the four documented error kinds. *)
Definition documented_kind (e : exn) : bool :=
  is_ValueError e || is_CommandError e || is_ConnectionError e
  || is_AuthenticationError e.

(** ** The network *)

(** One [session.get(url, params=params)] under [ClientSession(timeout=...)]. *)
Record request : Type := mkRequest {
  req_url : string;
  req_params : list (string * string);
  req_timeout : Z
}.

(** What comes back: no response at all, or a response with its status,
    what [resp.json()] yields ([None] when it raises) and the rendering of
    the un-awaited [resp.text()] that the messages interpolate. *)
Inductive http_outcome : Type :=
  | NoResponse (e : net_failure)
  | Response (status : Z) (body : option json) (text_repr : string).

Definition device : Type := request -> http_outcome.

Inductive result (A : Type) : Type :=
  | Ok (a : A)
  | Raise (e : exn).
Arguments Ok {A} a.
Arguments Raise {A} e.

(** A coroutine: given the device and the requests sent so far, the
    requests sent when it finishes and its outcome. *)
Definition Net (A : Type) : Type := device -> list request -> list request * result A.

Definition ret {A} (a : A) : Net A := fun _ log => (log, Ok a).
Definition raise {A} (e : exn) : Net A := fun _ log => (log, Raise e).
Definition bind {A B} (m : Net A) (k : A -> Net B) : Net B :=
  fun dev log =>
    match m dev log with
    | (log', Ok a) => k a dev log'
    | (log', Raise e) => (log', Raise e)
    end.
(** [try: m  except Exception as e: h e] *)
Definition try_except {A} (m : Net A) (h : exn -> Net A) : Net A :=
  fun dev log =>
    match m dev log with
    | (log', Ok a) => (log', Ok a)
    | (log', Raise e) => h e dev log'
    end.
(** The one effect: perform a GET and record it. *)
Definition http_get (rq : request) : Net http_outcome :=
  fun dev log => ((log ++ [rq])%list, Ok (dev rq)).

Declare Scope net_scope.
Delimit Scope net_scope with net.
Notation "x <- m ;; k" := (bind m (fun x => k))
  (at level 100, m at next level, right associativity) : net_scope.
Local Open Scope net_scope.

(** ** Operations on a reply that can raise *)

(** [type(x).__name__] *)
Definition type_name (x : json) : string :=
  match x with
  | JNull => "NoneType"
  | JBool _ => "bool"
  | JInt _ => "int"
  | JFloat _ => "float"
  | JStr _ => "str"
  | JList _ => "list"
  | JDict _ => "dict"
  end.

(** [response.get(k)]: only a dict has the method. *)
Definition dget {A : Type} (response : json) (k : string) (cont : json -> Net A) : Net A :=
  match response with
  | JDict d => cont (get d k)
  | x => raise (PyError "AttributeError"
                  ("'" ++ type_name x ++ "' object has no attribute 'get'"))
  end.

(** [next(iter(response))]: the first key of a dict, the first item of a
    list, the first character of a str. *)
Definition next_iter (response : json) : Net json :=
  match response with
  | JDict ((k, _) :: _) => ret (JStr k)
  | JList (x :: _) => ret x
  | JStr (String c _) => ret (JStr (String c EmptyString))
  | JDict [] | JList [] | JStr EmptyString => raise (PyError "StopIteration" "")
  | x => raise (PyError "TypeError" ("'" ++ type_name x ++ "' object is not iterable"))
  end.

(** [s in x] for a str [s]: a substring of a str, an item of a list, a key
    of a dict. *)
Definition contains (x : json) (s : string) : Net bool :=
  match x with
  | JStr t => ret (str_in s t)
  | JList l => ret (existsb (fun y => eq_str y s) l)
  | JDict d => ret (existsb (fun kv => String.eqb (fst kv) s) d)
  | x => raise (PyError "TypeError"
                  ("argument of type '" ++ type_name x ++ "' is not iterable"))
  end.

(** A [StopIteration] that would leave the body of an [async def] leaves
    it as a [RuntimeError] (PEP 479). *)
Definition async_def {A : Type} (body : Net A) : Net A :=
  try_except body (fun e =>
    match e with
    | PyError cls _ =>
        if String.eqb cls "StopIteration"
        then raise (PyError "RuntimeError" "coroutine raised StopIteration")
        else raise e
    | _ => raise e
    end).

(** ** The enumerated domains *)

Module tasmota_types.

(** Modelled from the spec: the module [tasmota_types] is not part of the
    sources at hand.  The specification gives PowerCommand as
    OFF | ON | TOGGLE | BLINK | BLINK_OFF. *)
Inductive PowerType : Type := OFF | ON | TOGGLE | BLINK | BLINK_OFF.

(** Modelled from the spec: PowerOutput is an output index 1..N or
    "all outputs".  The bound N is not given, so every positive index is
    kept: what holds of all of them holds of the first N. *)
Inductive PowerOutputType : Type :=
  | ALL_OUTPUTS
  | OUTPUT (n : positive).

(** Modelled from the spec: FriendlyNameOutput is an output index 1..N. *)
Inductive FriendlyNameOutputType : Type :=
  | NAME_OUTPUT (n : positive).

(** Modelled from the spec: StatusKind has 13 named categories; the names
    are those the docstring of [get_status] lists. *)
Inductive StatusType : Type :=
  | ABBREVIATED | ALL | DEVICE_PARAMETERS | FIRMWARE | LOGGING_AND_TELEMETRY
  | MEMORY | NETWORK | MQTT | TIME | CONNECTED_SENSOR | POWER_THRESHOLDS
  | TELE_PERIOD | STACK_DUMP.

Definition all_StatusType : list StatusType :=
  [ABBREVIATED; ALL; DEVICE_PARAMETERS; FIRMWARE; LOGGING_AND_TELEMETRY;
   MEMORY; NETWORK; MQTT; TIME; CONNECTED_SENSOR; POWER_THRESHOLDS;
   TELE_PERIOD; STACK_DUMP].

(** Modelled from the spec: the [.value] of a PowerOutput is its output
    code, [0] for all outputs, the index otherwise; the wrappers splice it
    into [POWER<n>] and compare it with the str ["0"]. *)
Definition PowerOutputType_value (o : PowerOutputType) : string :=
  match o with
  | ALL_OUTPUTS => "0"
  | OUTPUT n => str_int (Z.pos n)
  end.

(** Modelled from the spec: the [.value] of a FriendlyNameOutput is its
    index, spliced into [FriendlyName<n>]. *)
Definition FriendlyNameOutputType_value (o : FriendlyNameOutputType) : string :=
  match o with
  | NAME_OUTPUT n => str_int (Z.pos n)
  end.

(** What a caller can pass where a member of an enumeration is expected:
    a member of one of the four enumerations, or any other value. *)
Inductive pyarg : Type :=
  | APowerType (v : PowerType)
  | APowerOutputType (v : PowerOutputType)
  | AFriendlyNameOutputType (v : FriendlyNameOutputType)
  | AStatusType (v : StatusType)
  | AOther (v : json).

Inductive enum_class : Type :=
  | cPowerType | cPowerOutputType | cFriendlyNameOutputType | cStatusType.

(** Modelled from the spec: [_isValidEnumValue(value, enumClass)] is not
    part of the sources at hand; the specification has each wrapper accept
    exactly the values of its enumerated domain. *)
Definition _isValidEnumValue (value : pyarg) (enumClass : enum_class) : bool :=
  match value, enumClass with
  | APowerType _, cPowerType => true
  | APowerOutputType _, cPowerOutputType => true
  | AFriendlyNameOutputType _, cFriendlyNameOutputType => true
  | AStatusType _, cStatusType => true
  | _, _ => false
  end.

(** [a is b] on the members of an enumeration *)
Definition PowerType_is (a b : PowerType) : bool :=
  match a, b with
  | OFF, OFF | ON, ON | TOGGLE, TOGGLE | BLINK, BLINK | BLINK_OFF, BLINK_OFF => true
  | _, _ => false
  end.

Definition PowerOutputType_is (a b : PowerOutputType) : bool :=
  match a, b with
  | ALL_OUTPUTS, ALL_OUTPUTS => true
  | OUTPUT n, OUTPUT m => Pos.eqb n m
  | _, _ => false
  end.

End tasmota_types.

Import tasmota_types.

(** ** The class *)

(** [self]: the attributes [connect] sets. *)
Record TasmotaDevice : Type := mkTasmotaDevice {
  _timeout : Z;
  _url : string;
  _login_info : list (string * string)
}.

Definition command_failed (response : json) : exn :=
  CommandError (Fstr "Command failed: " response).

(** The GET that carries [command]: [<url>/cm] with the parameters
    [{"cmnd": command, **self._login_info}]. *)
Definition cm_request (self : TasmotaDevice) (command : string) : request :=
  {| req_url := _url self ++ "/cm";
     req_params := ("cmnd", command) :: _login_info self;
     req_timeout := _timeout self |}.

(** [send_raw_request]: one GET; an exception of the HTTP client is not
    caught here. *)
Definition send_raw_request (self : TasmotaDevice) (command : string) : Net json :=
  resp <- http_get (cm_request self command) ;;
  match resp with
  | NoResponse e => raise (HttpClientError e)
  | Response status body text_repr =>
      if negb (status =? 200)
      then raise (CommandError (Text ("Unexpected HTTP status " ++ str_int status
                                        ++ ": " ++ text_repr)))
      else match body with
           | Some j => ret j
           | None => raise (CommandError (Text ("Non-JSON data returned by device: "
                                                  ++ text_repr)))
           end
  end.

Definition get_blink_count (self : TasmotaDevice) : Net json :=
  response <- send_raw_request self "BlinkCount" ;;
  dget response "BlinkCount" (fun x =>
  if is_None x then raise (command_failed response)
  else dget response "BlinkCount" ret).

Definition set_blink_count (self : TasmotaDevice) (value : Z) : Net Z :=
  if (value <? 0) || (value >? 32000)
  then raise (ValueError (Text "Value must be between 0 and 32000"))
  else
    response <- send_raw_request self ("BlinkCount " ++ str_int value) ;;
    dget response "BlinkCount" (fun x =>
    if negb (eq_int x value) then raise (command_failed response)
    else ret value).

Definition get_blink_time (self : TasmotaDevice) : Net json :=
  response <- send_raw_request self "BlinkTime" ;;
  dget response "BlinkTime" (fun x =>
  if is_None x then raise (command_failed response)
  else dget response "BlinkTime" ret).

Definition set_blink_time (self : TasmotaDevice) (value : Z) : Net Z :=
  if (value <? 2) || (value >? 3600)
  then raise (ValueError (Text "Value must be between 2 and 3600"))
  else
    response <- send_raw_request self ("BlinkTime " ++ str_int value) ;;
    dget response "BlinkTime" (fun x =>
    if negb (eq_int x value) then raise (command_failed response)
    else ret value).

(** [.value] asked of something that is not a member of the enumeration;
    the validity test before it leaves no way here. *)
Definition no_value {A : Type} : Net A :=
  raise (PyError "AttributeError" "object has no attribute 'value'").

Definition get_power (self : TasmotaDevice) (output : pyarg) : Net json :=
  if negb (_isValidEnumValue output cPowerOutputType)
  then raise (ValueError (Text "Received invalid value for 'output'!"))
  else
    match output with
    | APowerOutputType output =>
        let output := PowerOutputType_value output in
        let power_output := "POWER" ++ output in
        response <- send_raw_request self power_output ;;
        if String.eqb output "0" then ret response
        else
          dget response power_output (fun x =>
          if negb (eq_str x "ON")
          then dget response power_output (fun y =>
               if negb (eq_str y "OFF") then raise (command_failed response)
               else dget response power_output ret)
          else dget response power_output ret)
    | _ => no_value
    end.

Definition get_friendly_name (self : TasmotaDevice) (output : pyarg) : Net json :=
  if negb (_isValidEnumValue output cFriendlyNameOutputType)
  then raise (ValueError (Text "Received invalid value for 'output'!"))
  else
    match output with
    | AFriendlyNameOutputType output =>
        let output := FriendlyNameOutputType_value output in
        response <- send_raw_request self ("FriendlyName" ++ output) ;;
        dget response ("FriendlyName" ++ output) (fun x =>
        if is_None x then raise (command_failed response)
        else dget response ("FriendlyName" ++ output) ret)
    | _ => no_value
    end.

Definition set_friendly_name (self : TasmotaDevice) (value : string) (output : pyarg)
  : Net string :=
  if negb (_isValidEnumValue output cFriendlyNameOutputType)
  then raise (ValueError (Text "Received invalid value for 'output'!"))
  else
    match output with
    | AFriendlyNameOutputType output =>
        let output := FriendlyNameOutputType_value output in
        if len value >? 32
        then raise (ValueError (Text "Name must be at most 32 characters long"))
        else
          response <- send_raw_request self ("FriendlyName" ++ output ++ " " ++ value) ;;
          dget response ("FriendlyName" ++ output) (fun x =>
          if negb (eq_str x value) then raise (command_failed response)
          else ret value)
    | _ => no_value
    end.

(** The methods below read the [.value] of a PowerType or a StatusType.
    Those encodings live in the module [tasmota_types], which is not part
    of the sources at hand, and the specification does not list them: they
    are taken as given.  So is the text Python renders a reply with inside
    an f-string, which only [connect] looks into. *)
Section Wrappers.

Variable PowerType_value : PowerType -> string.
Variable StatusType_value : StatusType -> string.
Variable repr : json -> string.

Definition set_power (self : TasmotaDevice) (value output : pyarg) : Net bool :=
  if negb (_isValidEnumValue value cPowerType)
  then raise (ValueError (Text "Received invalid value for 'value'!"))
  else if negb (_isValidEnumValue output cPowerOutputType)
  then raise (ValueError (Text "Received invalid value for 'output'!"))
  else
    match value, output with
    | APowerType value, APowerOutputType output =>
        if (PowerType_is value BLINK || PowerType_is value BLINK_OFF)
           && PowerOutputType_is output ALL_OUTPUTS
        then raise (ValueError (Text
          "Power type 'BLINK' and 'BLINK_OFF' can only be set for specific outputs, not all!"))
        else
          let parsed_value := PowerType_value value in
          let output := PowerOutputType_value output in
          let power_output := "POWER" ++ output in
          response <- send_raw_request self (power_output ++ " " ++ parsed_value) ;;
          dget response power_output (fun x =>
          if is_None x then raise (command_failed response)
          else
            match value with
            | OFF =>
                dget response power_output (fun x =>
                if negb (eq_str x "OFF") then raise (command_failed response)
                else ret false)
            | ON =>
                dget response power_output (fun x =>
                if negb (eq_str x "ON") then raise (command_failed response)
                else ret true)
            | TOGGLE =>
                dget response power_output (fun x =>
                if negb (eq_str x "ON")
                then dget response "POWER" (fun y =>
                     if negb (eq_str y "OFF") then raise (command_failed response)
                     else dget response power_output (fun z => ret (eq_str z "ON")))
                else dget response power_output (fun z => ret (eq_str z "ON")))
            | BLINK =>
                dget response power_output (fun x =>
                if negb (eq_str x "Blink ON") then raise (command_failed response)
                else ret true)
            | BLINK_OFF =>
                dget response power_output (fun x =>
                if negb (eq_str x "Blink OFF") then raise (command_failed response)
                else ret true)
            end)
    | _, _ => no_value
    end.

Definition get_status (self : TasmotaDevice) (statusType : pyarg) : Net json :=
  async_def (
  if negb (_isValidEnumValue statusType cStatusType)
  then raise (ValueError (Text "Received invalid value for 'statusType'!"))
  else
    match statusType with
    | AStatusType statusType =>
        let statusType := StatusType_value statusType in
        response <- send_raw_request self ("Status " ++ statusType) ;;
        first <- next_iter response ;;
        found <- contains first "Status" ;;
        if negb found then raise (command_failed response)
        else ret response
    | _ => no_value
    end).

(** The marker the device answers with when it wants credentials. *)
Definition auth_prompt : string := "Need user=<username>&password=<password>".

Definition is_none {A : Type} (o : option A) : bool :=
  match o with None => true | Some _ => false end.

(** The URL [connect] keeps: trailing slashes removed, then [http://] put
    in front unless the text starts with [http://] or [https://]. *)
Definition connect_url (url : string) : string :=
  let u := rstrip_slash url in
  if negb (startswith u "http://") && negb (startswith u "https://")
  then "http://" ++ u
  else u.

(** The attributes [connect] gives the new instance. *)
Definition configured (url : string) (username password : option string) (timeout : Z)
  : TasmotaDevice :=
  {| _timeout := timeout;
     _url := connect_url url;
     _login_info :=
       match password, username with
       | Some p, Some u => [("user", u); ("password", p)]
       | _, _ => []
       end |}.

Definition connect (url : string) (username password : option string) (timeout : Z)
  : Net TasmotaDevice :=
  if negb (Bool.eqb (is_none username) (is_none password))
  then raise (ValueError (Text
         "Username and password must either be both not set or both set!"))
  else
    let self := configured url username password timeout in
    _ <- try_except (get_status self (AStatusType ABBREVIATED)) (fun e =>
           if str_in auth_prompt (str_exn repr e)
           then
             if is_none password
             then raise (AuthenticationError (Text
                    "Username (usually admin) and password are required"))
             else raise (AuthenticationError (Text
                    "Username and / or password are invalid"))
           else raise (ConnectionError (Text
                  ("Failed to connect to tasmota device: " ++ str_exn repr e)))) ;;
    ret self.

(** ** The wrapper methods as one family *)

Inductive facade_call : Type :=
  | GetBlinkCount
  | SetBlinkCount (value : Z)
  | GetBlinkTime
  | SetBlinkTime (value : Z)
  | GetPower (output : pyarg)
  | SetPower (value output : pyarg)
  | GetFriendlyName (output : pyarg)
  | SetFriendlyName (value : string) (output : pyarg)
  | GetStatus (statusType : pyarg).

Definition forget {A : Type} (m : Net A) : Net unit := x <- m ;; ret tt.

(** Run a wrapper and keep whether it returned or what it raised. *)
Definition call (self : TasmotaDevice) (c : facade_call) : Net unit :=
  match c with
  | GetBlinkCount => forget (get_blink_count self)
  | SetBlinkCount v => forget (set_blink_count self v)
  | GetBlinkTime => forget (get_blink_time self)
  | SetBlinkTime v => forget (set_blink_time self v)
  | GetPower o => forget (get_power self o)
  | SetPower v o => forget (set_power self v o)
  | GetFriendlyName o => forget (get_friendly_name self o)
  | SetFriendlyName v o => forget (set_friendly_name self v o)
  | GetStatus s => forget (get_status self s)
  end.

End Wrappers.

(** ** The claims in the words of the specification *)

(** The inputs the claim on argument validation lists as outside the
    documented domain of a wrapper. *)
Definition outside_domain (c : facade_call) : bool :=
  match c with
  | GetBlinkCount | GetBlinkTime => false
  | SetBlinkCount v => (v <? 0) || (32000 <? v)
  | SetBlinkTime v => (v <? 2) || (3600 <? v)
  | GetPower o => negb (_isValidEnumValue o cPowerOutputType)
  | SetPower v o =>
      negb (_isValidEnumValue v cPowerType)
      || negb (_isValidEnumValue o cPowerOutputType)
      || match v, o with
         | APowerType BLINK, APowerOutputType ALL_OUTPUTS
         | APowerType BLINK_OFF, APowerOutputType ALL_OUTPUTS => true
         | _, _ => false
         end
  | GetFriendlyName o => negb (_isValidEnumValue o cFriendlyNameOutputType)
  | SetFriendlyName v o =>
      negb (_isValidEnumValue o cFriendlyNameOutputType)
      || (32 <? Z.of_nat (String.length v))
  | GetStatus s => negb (_isValidEnumValue s cStatusType)
  end.

(** The URL of the specification: "strip trailing slash; prepend http://
    if no scheme present", a scheme being what stands before [://]. *)
Definition scheme_present (url : string) : bool := str_in "://" url.

Definition spec_connect_url (url : string) : string :=
  if scheme_present url then rstrip_slash url else "http://" ++ rstrip_slash url.

(** The three wrappers that read one key of the reply and hand it back. *)
Inductive getter : Type :=
  | BlinkCountGetter
  | BlinkTimeGetter
  | FriendlyNameGetter (output : FriendlyNameOutputType).

Definition getter_key (g : getter) : string :=
  match g with
  | BlinkCountGetter => "BlinkCount"
  | BlinkTimeGetter => "BlinkTime"
  | FriendlyNameGetter o => "FriendlyName" ++ FriendlyNameOutputType_value o
  end.

Definition run_getter (self : TasmotaDevice) (g : getter) : Net json :=
  match g with
  | BlinkCountGetter => get_blink_count self
  | BlinkTimeGetter => get_blink_time self
  | FriendlyNameGetter o => get_friendly_name self (AFriendlyNameOutputType o)
  end.

(** The body the three share: send [key] as the command, raise
    [CommandError] when [response.get(key)] is [None], return
    [response.get(key)] otherwise. *)
Definition read_key (self : TasmotaDevice) (key : string) : Net json :=
  response <- send_raw_request self key ;;
  dget response key (fun x =>
  if is_None x then raise (command_failed response)
  else dget response key ret).

(** [n] slashes in a row, and whether a text ends with one: what
    [rstrip("/")] takes off and what it leaves. *)
Fixpoint slashes (n : nat) : string :=
  match n with
  | O => EmptyString
  | S n' => String "/" (slashes n')
  end.

Fixpoint ends_with_slash (s : string) : bool :=
  match s with
  | EmptyString => false
  | String c s' =>
      match s' with
      | EmptyString => Ascii.eqb c "/"
      | _ => ends_with_slash s'
      end
  end.

(** ** Devices and tables to run the wrappers on *)

Module Sample.

(** A device that answers every command with status 200 and the body [j]. *)
Definition answering (j : json) : device := fun _ => Response 200 (Some j) "".

(** A device no request reaches before the timeout. *)
Definition silent : device := fun _ => NoResponse TimeoutError.

(** The instance [connect("192.168.0.10")] sets up. *)
Definition plug : TasmotaDevice := configured "192.168.0.10" None None 30.

(** Encodings to run [set_power] and [get_status] with. *)
Definition power_code (v : PowerType) : string :=
  match v with
  | OFF => "0" | ON => "1" | TOGGLE => "2" | BLINK => "3" | BLINK_OFF => "4"
  end.

Definition status_code (v : StatusType) : string :=
  match v with
  | ABBREVIATED => ""
  | ALL => "0" | DEVICE_PARAMETERS => "1" | FIRMWARE => "2"
  | LOGGING_AND_TELEMETRY => "3" | MEMORY => "4" | NETWORK => "5"
  | MQTT => "6" | TIME => "7" | CONNECTED_SENSOR => "8"
  | POWER_THRESHOLDS => "9" | TELE_PERIOD => "11" | STACK_DUMP => "12"
  end.

(** The rendering of a dict of strs, enough for the replies used here. *)
Definition render (j : json) : string :=
  match j with
  | JDict [(k, JStr v)] => "{'" ++ k ++ "': '" ++ v ++ "'}"
  | _ => "{}"
  end.

(** The reply of a device that wants credentials. *)
Definition warning : json :=
  JDict [("WARNING", JStr "Need user=<username>&password=<password>")].

End Sample.

(** ** What a wrapper sends and what [set_power] waits for *)

(** The command a wrapper builds once its arguments are accepted: the
    f-string it hands to [send_raw_request]. *)
Definition command_of (PowerType_value : PowerType -> string)
    (StatusType_value : StatusType -> string) (c : facade_call) : string :=
  match c with
  | GetBlinkCount => "BlinkCount"
  | SetBlinkCount v => "BlinkCount " ++ str_int v
  | GetBlinkTime => "BlinkTime"
  | SetBlinkTime v => "BlinkTime " ++ str_int v
  | GetPower (APowerOutputType o) => "POWER" ++ PowerOutputType_value o
  | SetPower (APowerType v) (APowerOutputType o) =>
      ("POWER" ++ PowerOutputType_value o) ++ " " ++ PowerType_value v
  | GetFriendlyName (AFriendlyNameOutputType o) =>
      "FriendlyName" ++ FriendlyNameOutputType_value o
  | SetFriendlyName v (AFriendlyNameOutputType o) =>
      "FriendlyName" ++ FriendlyNameOutputType_value o ++ " " ++ v
  | GetStatus (AStatusType k) => "Status " ++ StatusType_value k
  | _ => ""
  end.

(** The branches of [set_power] that compare the reply with one fixed
    text: the text waited for and the value returned when it is there.
    TOGGLE has no such single text. *)
Definition power_reply_rule (v : PowerType) : option (string * bool) :=
  match v with
  | OFF => Some ("OFF", false)
  | ON => Some ("ON", true)
  | TOGGLE => None
  | BLINK => Some ("Blink ON", true)
  | BLINK_OFF => Some ("Blink OFF", true)
  end.

(** BLINK or BLINK_OFF asked of all outputs at once. *)
Definition blink_on_all (v : PowerType) (o : PowerOutputType) : bool :=
  (PowerType_is v BLINK || PowerType_is v BLINK_OFF) && PowerOutputType_is o ALL_OUTPUTS.

(** ** The string operations on examples *)

Example str_int_examples :
  str_int 0 = "0" /\ str_int 32000 = "32000" /\ str_int (-5) = "-5".
Proof. repeat split. Qed.

Example rstrip_slash_examples :
  rstrip_slash "a/b//" = "a/b" /\ rstrip_slash "///" = "" /\ rstrip_slash "/a" = "/a".
Proof. repeat split. Qed.

Example str_in_examples :
  str_in "Status" "StatusFWR" = true
  /\ str_in "Status" "WARNING" = false
  /\ str_in "" "" = true
  /\ str_in auth_prompt
       "Command failed: {'WARNING': 'Need user=<username>&password=<password>'}" = true.
Proof. repeat split. Qed.

Example eq_int_examples :
  eq_int (JInt 7) 7 = true
  /\ eq_int (JBool true) 1 = true
  /\ eq_int (JFloat (S754_finite false 3 (-1))) 1 = false
  /\ eq_int (JFloat (S754_finite false 3 1)) 6 = true
  /\ eq_int (JStr "7") 7 = false.
Proof. repeat split. Qed.

(** ** Running the transport *)

Lemma bind_ok {A B : Type} (m : Net A) (k : A -> Net B) dev log log' a :
  m dev log = (log', Ok a) -> bind m k dev log = k a dev log'.
Proof. intros H. unfold bind. now rewrite H. Qed.

Lemma bind_raise {A B : Type} (m : Net A) (k : A -> Net B) dev log log' e :
  m dev log = (log', Raise e) -> bind m k dev log = (log', Raise e).
Proof. intros H. unfold bind. now rewrite H. Qed.

(** Every run of the transport sends exactly one request, the one that
    carries the command. *)
Lemma send_raw_request_log self command dev log :
  fst (send_raw_request self command dev log) = (log ++ [cm_request self command])%list.
Proof.
  unfold send_raw_request, bind, http_get.
  destruct (dev (cm_request self command)) as [e | status body text]; [reflexivity |].
  destruct (negb (status =? 200)); [reflexivity |].
  destruct body; reflexivity.
Qed.

Lemma send_raw_request_ok self command dev log j text :
  dev (cm_request self command) = Response 200 (Some j) text ->
  send_raw_request self command dev log = ((log ++ [cm_request self command])%list, Ok j).
Proof.
  intros H. unfold send_raw_request, bind, http_get. now rewrite H.
Qed.

Lemma send_raw_request_no_response self command dev log f :
  dev (cm_request self command) = NoResponse f ->
  send_raw_request self command dev log =
    ((log ++ [cm_request self command])%list, Raise (HttpClientError f)).
Proof.
  intros H. unfold send_raw_request, bind, http_get. now rewrite H.
Qed.

(** What the transport yields is never a documented failure other than
    [CommandError]: it raises no [ValueError] and builds no
    [ConnectionError] or [AuthenticationError] of its own. *)
Lemma send_raw_request_raises self command dev log e :
  snd (send_raw_request self command dev log) = Raise e ->
  (exists m, e = CommandError m) \/ (exists f, e = HttpClientError f).
Proof.
  unfold send_raw_request, bind, http_get.
  destruct (dev (cm_request self command)) as [f | status body text]; simpl.
  - intros [= <-]. right. now exists f.
  - destruct (negb (status =? 200)); simpl.
    + intros [= <-]. left. eauto.
    + destruct body; simpl; [discriminate |]. intros [= <-]. left. eauto.
Qed.

(** Step over a [send_raw_request] that the hypothesis [H] answers. *)
Ltac sent H := erewrite bind_ok by (eapply send_raw_request_ok; exact H).

(** ** C1: [set_power] with TOGGLE *)

(** C1. The claim asks [set_power] with TOGGLE on output n to look only at
    the reply's value under [POWER<n>]: raise [CommandError] unless it is
    ["ON"] or ["OFF"], return whether it is ["ON"] otherwise.  The code
    tests the second alternative under the fixed key ["POWER"]: on output
    1 the reply [{"POWER1": "OFF"}] raises [CommandError] where the claim
    has [False] returned, and the reply
    [{"POWER1": "UNKNOWN", "POWER": "OFF"}] returns [False] where the claim
    has [CommandError] raised. *)
Theorem set_power_toggle_reads_POWER :
  forall (PowerType_value : PowerType -> string) (self : TasmotaDevice),
    snd (set_power PowerType_value self (APowerType TOGGLE) (APowerOutputType (OUTPUT 1))
           (Sample.answering (JDict [("POWER1", JStr "OFF")])) [])
      = Raise (command_failed (JDict [("POWER1", JStr "OFF")]))
    /\
    snd (set_power PowerType_value self (APowerType TOGGLE) (APowerOutputType (OUTPUT 1))
           (Sample.answering (JDict [("POWER1", JStr "UNKNOWN"); ("POWER", JStr "OFF")])) [])
      = Ok false.
Proof.
  intros pv self. split.
  - unfold set_power. cbn -[send_raw_request].
    erewrite bind_ok by (eapply send_raw_request_ok; reflexivity).
    reflexivity.
  - unfold set_power. cbn -[send_raw_request].
    erewrite bind_ok by (eapply send_raw_request_ok; reflexivity).
    reflexivity.
Qed.

(** ** C3: a request that gets no response *)

(** C3, as stated, fails: when the request times out, the transport
    raises the timeout of the HTTP client as it is, which is no
    [ConnectionError]. *)
Lemma send_raw_request_timeout_not_ConnectionError :
  exists e,
    snd (send_raw_request Sample.plug "Status 0" Sample.silent []) = Raise e
    /\ is_ConnectionError e = false
    /\ documented_kind e = false.
Proof. exists (HttpClientError TimeoutError). repeat split. Qed.

(** C3, amended.  When the HTTP request times out or fails at the network
    level, the transport sends its one request and raises the exception of
    the HTTP client unchanged; it does not turn it into a
    [ConnectionError]. *)
Theorem send_raw_request_propagates_failure :
  forall (self : TasmotaDevice) (command : string) (dev : device)
         (log : list request) (f : net_failure),
    dev (cm_request self command) = NoResponse f ->
    send_raw_request self command dev log =
      ((log ++ [cm_request self command])%list, Raise (HttpClientError f)).
Proof. intros. now apply send_raw_request_no_response. Qed.

Lemma send_raw_request_propagates_failure_witness :
  Sample.silent (cm_request Sample.plug "BlinkCount") = NoResponse TimeoutError
  /\ send_raw_request Sample.plug "BlinkCount" Sample.silent [] =
       ([cm_request Sample.plug "BlinkCount"], Raise (HttpClientError TimeoutError)).
Proof.
  split; [reflexivity |].
  apply (send_raw_request_propagates_failure Sample.plug "BlinkCount" Sample.silent []).
  reflexivity.
Defined.

(** ** C4: [set_blink_count] *)

(** C4, as stated, fails: the reply [{"BlinkCount": true}] does not map
    ["BlinkCount"] to the integer 1, yet [set_blink_count(1)] returns 1 on
    it instead of raising [CommandError], since [True != 1] is false. *)
Lemma set_blink_count_accepts_True :
  lookup [("BlinkCount", JBool true)] "BlinkCount" <> Some (JInt 1)
  /\ set_blink_count Sample.plug 1
       (Sample.answering (JDict [("BlinkCount", JBool true)])) []
     = ([cm_request Sample.plug "BlinkCount 1"], Ok 1).
Proof. split; [discriminate | reflexivity]. Qed.

(** C4, amended.  For 0 <= v <= 32000, [set_blink_count(v)] sends exactly
    the command ["BlinkCount v"]; on a reply that is a mapping it returns v
    when the value under ["BlinkCount"] equals v by Python's [==] (the
    integer v itself, a float of that value, or [True] for 1 and [False]
    for 0) and raises [CommandError] with the reply on any other mapping.
    For v outside [0, 32000] it raises [ValueError] and sends nothing. *)
Theorem set_blink_count_spec :
  forall (self : TasmotaDevice) (v : Z) (dev : device) (log : list request),
    (0 <= v <= 32000 ->
     forall (d : dict) (text : string),
       dev (cm_request self ("BlinkCount " ++ str_int v)) = Response 200 (Some (JDict d)) text ->
       set_blink_count self v dev log =
         ((log ++ [cm_request self ("BlinkCount " ++ str_int v)])%list,
          if eq_int (get d "BlinkCount") v then Ok v
          else Raise (command_failed (JDict d)))
       /\ (lookup d "BlinkCount" = Some (JInt v) ->
           snd (set_blink_count self v dev log) = Ok v))
    /\
    (v < 0 \/ 32000 < v ->
     set_blink_count self v dev log =
       (log, Raise (ValueError (Text "Value must be between 0 and 32000")))).
Proof.
  intros self v dev log. split.
  - intros Hv d text Hdev.
    assert (Hrange : (v <? 0) || (v >? 32000) = false).
    { rewrite Z.gtb_ltb. apply orb_false_intro; apply Z.ltb_ge; lia. }
    assert (Hrun : set_blink_count self v dev log =
              ((log ++ [cm_request self ("BlinkCount " ++ str_int v)])%list,
               if eq_int (get d "BlinkCount") v then Ok v
               else Raise (command_failed (JDict d)))).
    { unfold set_blink_count. rewrite Hrange. sent Hdev.
      unfold dget. now destruct (eq_int (get d "BlinkCount") v). }
    split; [exact Hrun |].
    intros Hd. rewrite Hrun. unfold get. rewrite Hd. simpl.
    now rewrite Z.eqb_refl.
  - intros Hv. unfold set_blink_count.
    assert (Hrange : (v <? 0) || (v >? 32000) = true).
    { rewrite Z.gtb_ltb. apply orb_true_iff.
      destruct Hv; [left | right]; now apply Z.ltb_lt. }
    now rewrite Hrange.
Qed.

Lemma set_blink_count_spec_witness :
  set_blink_count Sample.plug 5 (Sample.answering (JDict [("BlinkCount", JInt 5)])) []
    = ([cm_request Sample.plug "BlinkCount 5"], Ok 5)
  /\ set_blink_count Sample.plug 32001 (Sample.answering (JDict [("BlinkCount", JInt 5)])) []
    = ([], Raise (ValueError (Text "Value must be between 0 and 32000"))).
Proof.
  split.
  - apply (proj1 (set_blink_count_spec Sample.plug 5
                    (Sample.answering (JDict [("BlinkCount", JInt 5)])) [])
             ltac:(lia) [("BlinkCount", JInt 5)] "" eq_refl).
  - apply (proj2 (set_blink_count_spec Sample.plug 32001
                    (Sample.answering (JDict [("BlinkCount", JInt 5)])) [])).
    right. lia.
Defined.

(** ** C5: [get_power] on all outputs *)

(** C5. With [output = ALL_OUTPUTS], [get_power] sends ["POWER0"] and
    returns whatever JSON value the transport returned, as it is: no key of
    it is looked at. *)
Theorem get_power_all_outputs_raw :
  forall (self : TasmotaDevice) (dev : device) (log : list request)
         (reply : json) (text : string),
    dev (cm_request self "POWER0") = Response 200 (Some reply) text ->
    get_power self (APowerOutputType ALL_OUTPUTS) dev log =
      ((log ++ [cm_request self "POWER0"])%list, Ok reply).
Proof.
  intros self dev log reply text Hdev.
  unfold get_power. cbn -[send_raw_request].
  sent Hdev. reflexivity.
Qed.

Lemma get_power_all_outputs_raw_witness :
  get_power Sample.plug (APowerOutputType ALL_OUTPUTS)
    (Sample.answering (JDict [("POWER1", JStr "ON"); ("POWER2", JInt 7)])) []
  = ([cm_request Sample.plug "POWER0"],
     Ok (JDict [("POWER1", JStr "ON"); ("POWER2", JInt 7)])).
Proof.
  apply (get_power_all_outputs_raw Sample.plug
           (Sample.answering (JDict [("POWER1", JStr "ON"); ("POWER2", JInt 7)])) []
           (JDict [("POWER1", JStr "ON"); ("POWER2", JInt 7)]) "").
  reflexivity.
Defined.

(** ** C6: arguments are checked before the network is used *)

Lemma forget_raise {A : Type} (m : Net A) dev log e :
  m dev log = (log, Raise e) -> forget m dev log = (log, Raise e).
Proof. intros H. unfold forget. now apply bind_raise. Qed.

(** C6. Whatever wrapper is called, with whatever device behind it: on an
    input outside its documented domain (blink count outside [0, 32000],
    blink time outside [2, 3600], an output, command or status value that
    is no member of the enumeration, a friendly name of more than 32
    characters, BLINK or BLINK_OFF on all outputs) the call raises
    [ValueError] and the log of requests is what it was: nothing was
    sent. *)
Theorem invalid_argument_before_network :
  forall (PowerType_value : PowerType -> string)
         (StatusType_value : StatusType -> string)
         (self : TasmotaDevice) (c : facade_call) (dev : device) (log : list request),
    outside_domain c = true ->
    exists m, call PowerType_value StatusType_value self c dev log
              = (log, Raise (ValueError m)).
Proof.
  intros pv sv self c dev log H.
  destruct c as [ | v | | v | o | v o | o | v o | s ]; simpl in H; try discriminate;
    unfold call.
  - eexists. apply forget_raise.
    unfold set_blink_count. rewrite Z.gtb_ltb, H. reflexivity.
  - eexists. apply forget_raise.
    unfold set_blink_time. rewrite Z.gtb_ltb, H. reflexivity.
  - eexists. apply forget_raise.
    unfold get_power. rewrite H. reflexivity.
  - destruct v as [p | | | | ]; destruct o as [ | po | | | ];
      simpl in H; try discriminate;
      try (eexists; apply forget_raise; reflexivity).
    destruct p, po; simpl in H; try discriminate;
      eexists; apply forget_raise; reflexivity.
  - eexists. apply forget_raise.
    unfold get_friendly_name. rewrite H. reflexivity.
  - destruct o as [ | | fo | | ]; simpl in H;
      try (eexists; apply forget_raise; reflexivity).
    eexists. apply forget_raise.
    unfold set_friendly_name, len. simpl. rewrite Z.gtb_ltb, H. reflexivity.
  - eexists. apply forget_raise.
    unfold get_status, async_def, try_except. rewrite H. reflexivity.
Qed.

Lemma invalid_argument_before_network_witness :
  exists m,
    call Sample.power_code Sample.status_code Sample.plug
      (SetPower (APowerType BLINK) (APowerOutputType ALL_OUTPUTS))
      (Sample.answering (JDict [("POWER0", JStr "Blink ON")])) []
    = ([], Raise (ValueError m)).
Proof.
  apply (invalid_argument_before_network Sample.power_code Sample.status_code
           Sample.plug (SetPower (APowerType BLINK) (APowerOutputType ALL_OUTPUTS))).
  reflexivity.
Defined.

(** ** C7 and C9: [get_status] *)

(** The enumeration of status kinds has 13 members, and [all_StatusType]
    lists each of them once. *)
Lemma all_StatusType_complete :
  List.length all_StatusType = 13%nat
  /\ NoDup all_StatusType
  /\ forall k : StatusType, In k all_StatusType.
Proof.
  split; [reflexivity |]. split.
  - unfold all_StatusType.
    repeat (constructor; [simpl; intuition discriminate |]). constructor.
  - intros []; simpl; tauto.
Qed.

(** C7. For each of the 13 status kinds, [get_status] sends the command
    ["Status <code>"] with the code of that kind; on a reply whose first
    key does not contain ["Status"] it raises [CommandError] with the
    reply, and on any other reply with a first key it returns the reply as
    it is. *)
Theorem get_status_spec :
  forall (StatusType_value : StatusType -> string) (self : TasmotaDevice)
         (kind : StatusType) (dev : device) (log : list request)
         (key : string) (v : json) (rest : dict) (text : string),
    dev (cm_request self ("Status " ++ StatusType_value kind))
      = Response 200 (Some (JDict ((key, v) :: rest))) text ->
    get_status StatusType_value self (AStatusType kind) dev log =
      ((log ++ [cm_request self ("Status " ++ StatusType_value kind)])%list,
       if str_in "Status" key then Ok (JDict ((key, v) :: rest))
       else Raise (command_failed (JDict ((key, v) :: rest)))).
Proof.
  intros sv self kind dev log key v rest text Hdev.
  unfold get_status, async_def, try_except. cbn -[send_raw_request str_in].
  sent Hdev.
  unfold bind, next_iter, contains, ret, raise.
  now destruct (str_in "Status" key).
Qed.

Lemma get_status_spec_witness :
  get_status Sample.status_code Sample.plug (AStatusType FIRMWARE)
    (Sample.answering (JDict [("StatusFWR", JDict [("Version", JStr "9.1.0")])])) []
  = ([cm_request Sample.plug "Status 2"],
     Ok (JDict [("StatusFWR", JDict [("Version", JStr "9.1.0")])])).
Proof.
  apply (get_status_spec Sample.status_code Sample.plug FIRMWARE
           (Sample.answering (JDict [("StatusFWR", JDict [("Version", JStr "9.1.0")])]))
           [] "StatusFWR" (JDict [("Version", JStr "9.1.0")]) [] "").
  reflexivity.
Defined.

(** C9. When the transport returns the empty JSON object, [get_status]
    neither returns nor raises [CommandError]: taking the first key fails,
    and the exception that leaves the coroutine is a [RuntimeError], none
    of the four documented kinds. *)
Theorem get_status_empty_reply :
  forall (StatusType_value : StatusType -> string) (self : TasmotaDevice)
         (kind : StatusType) (dev : device) (log : list request) (text : string),
    dev (cm_request self ("Status " ++ StatusType_value kind))
      = Response 200 (Some (JDict [])) text ->
    exists e,
      get_status StatusType_value self (AStatusType kind) dev log =
        ((log ++ [cm_request self ("Status " ++ StatusType_value kind)])%list, Raise e)
      /\ documented_kind e = false.
Proof.
  intros sv self kind dev log text Hdev.
  exists (PyError "RuntimeError" "coroutine raised StopIteration").
  split; [| reflexivity].
  unfold get_status, async_def, try_except. cbn -[send_raw_request].
  sent Hdev. reflexivity.
Qed.

Lemma get_status_empty_reply_witness :
  exists e,
    get_status Sample.status_code Sample.plug (AStatusType ALL)
      (Sample.answering (JDict [])) []
    = ([cm_request Sample.plug "Status 0"], Raise e)
    /\ documented_kind e = false.
Proof.
  apply (get_status_empty_reply Sample.status_code Sample.plug ALL
           (Sample.answering (JDict [])) [] "").
  reflexivity.
Defined.

(** ** C10: a key mapped to null *)

Lemma run_getter_read_key self g :
  run_getter self g = read_key self (getter_key g).
Proof. destruct g as [ | | [n]]; reflexivity. Qed.

Lemma read_key_reply self key dev log d text :
  dev (cm_request self key) = Response 200 (Some (JDict d)) text ->
  read_key self key dev log =
    ((log ++ [cm_request self key])%list,
     match lookup d key with
     | None | Some JNull => Raise (command_failed (JDict d))
     | Some v => Ok v
     end).
Proof.
  intros Hdev. unfold read_key. sent Hdev.
  unfold dget, get. destruct (lookup d key) as [[] | ]; reflexivity.
Qed.

Lemma read_key_never_None self key dev log :
  snd (read_key self key dev log) <> Ok JNull.
Proof.
  unfold read_key, send_raw_request, bind, http_get.
  destruct (dev (cm_request self key)) as [f | status body text]; [discriminate |].
  destruct (negb (status =? 200)); [discriminate |].
  destruct body as [j | ]; [| discriminate].
  destruct j; try discriminate.
  unfold dget, get, ret, raise.
  destruct (lookup d key) as [[] | ]; simpl; discriminate.
Qed.

(** C10. In [get_blink_count], [get_blink_time] and [get_friendly_name], a
    reply that maps the expected key to null is treated as a reply without
    the key: either way the call raises [CommandError] with the reply; and
    on no device at all does the call return null. *)
Theorem getters_null_as_missing :
  forall (self : TasmotaDevice) (g : getter) (dev : device) (log : list request),
    (forall (d : dict) (text : string),
       dev (cm_request self (getter_key g)) = Response 200 (Some (JDict d)) text ->
       lookup d (getter_key g) = None \/ lookup d (getter_key g) = Some JNull ->
       run_getter self g dev log =
         ((log ++ [cm_request self (getter_key g)])%list,
          Raise (command_failed (JDict d))))
    /\ snd (run_getter self g dev log) <> Ok JNull.
Proof.
  intros self g dev log. rewrite run_getter_read_key. split.
  - intros d text Hdev Hkey.
    rewrite (read_key_reply _ _ _ _ _ _ Hdev).
    destruct Hkey as [-> | ->]; reflexivity.
  - apply read_key_never_None.
Qed.

Lemma getters_null_as_missing_witness :
  run_getter Sample.plug (FriendlyNameGetter (NAME_OUTPUT 2))
    (Sample.answering (JDict [("FriendlyName2", JNull)])) []
  = ([cm_request Sample.plug "FriendlyName2"],
     Raise (command_failed (JDict [("FriendlyName2", JNull)])))
  /\
  run_getter Sample.plug BlinkTimeGetter
    (Sample.answering (JDict [("Command", JStr "Unknown")])) []
  = ([cm_request Sample.plug "BlinkTime"],
     Raise (command_failed (JDict [("Command", JStr "Unknown")]))).
Proof.
  split.
  - apply (proj1 (getters_null_as_missing Sample.plug (FriendlyNameGetter (NAME_OUTPUT 2))
                    (Sample.answering (JDict [("FriendlyName2", JNull)])) [])
             [("FriendlyName2", JNull)] "" eq_refl).
    right. reflexivity.
  - apply (proj1 (getters_null_as_missing Sample.plug BlinkTimeGetter
                    (Sample.answering (JDict [("Command", JStr "Unknown")])) [])
             [("Command", JStr "Unknown")] "" eq_refl).
    left. reflexivity.
Defined.

(** ** C2: the probe of [connect] *)

(** C2. Once the credentials are both given or both left out, a failure of
    the probe [get_status()] decides what [connect] raises: if the text of
    the failure contains the authentication prompt, [AuthenticationError],
    saying that credentials are required when no password was given and
    that they are invalid when one was; on any other failure,
    [ConnectionError] with the text of the cause. *)
Theorem connect_probe_failure :
  forall (StatusType_value : StatusType -> string) (repr : json -> string)
         (url : string) (username password : option string) (timeout : Z)
         (dev : device) (log log' : list request) (e : exn),
    is_none username = is_none password ->
    get_status StatusType_value (configured url username password timeout)
      (AStatusType ABBREVIATED) dev log = (log', Raise e) ->
    (str_in auth_prompt (str_exn repr e) = true -> password = None ->
     connect StatusType_value repr url username password timeout dev log =
       (log', Raise (AuthenticationError
                       (Text "Username (usually admin) and password are required"))))
    /\
    (str_in auth_prompt (str_exn repr e) = true -> password <> None ->
     connect StatusType_value repr url username password timeout dev log =
       (log', Raise (AuthenticationError
                       (Text "Username and / or password are invalid"))))
    /\
    (str_in auth_prompt (str_exn repr e) = false ->
     connect StatusType_value repr url username password timeout dev log =
       (log', Raise (ConnectionError
                       (Text ("Failed to connect to tasmota device: "
                                ++ str_exn repr e))))).
Proof.
  intros sv repr url username password timeout dev log log' e Hcred Hprobe.
  assert (Hrun : connect sv repr url username password timeout dev log =
            (log', Raise
               (if str_in auth_prompt (str_exn repr e)
                then if is_none password
                     then AuthenticationError
                            (Text "Username (usually admin) and password are required")
                     else AuthenticationError
                            (Text "Username and / or password are invalid")
                else ConnectionError
                       (Text ("Failed to connect to tasmota device: "
                                ++ str_exn repr e))))).
  { unfold connect. rewrite Hcred, Bool.eqb_reflx. cbn [negb].
    unfold bind, try_except. rewrite Hprobe.
    destruct (str_in auth_prompt (str_exn repr e)); [| reflexivity].
    destruct (is_none password); reflexivity. }
  rewrite Hrun. repeat split.
  - intros -> ->. reflexivity.
  - intros -> Hp. destruct password; [reflexivity | congruence].
  - intros ->. reflexivity.
Qed.

Lemma connect_probe_failure_witness :
  connect Sample.status_code Sample.render "192.168.0.10/" None None 30
    (Sample.answering Sample.warning) []
  = ([cm_request Sample.plug "Status "],
     Raise (AuthenticationError
              (Text "Username (usually admin) and password are required")))
  /\
  connect Sample.status_code Sample.render "192.168.0.10/" (Some "admin") (Some "1234") 30
    (Sample.answering Sample.warning) []
  = ([cm_request (configured "192.168.0.10/" (Some "admin") (Some "1234") 30) "Status "],
     Raise (AuthenticationError (Text "Username and / or password are invalid")))
  /\
  connect Sample.status_code Sample.render "192.168.0.10/" None None 30 Sample.silent []
  = ([cm_request Sample.plug "Status "],
     Raise (ConnectionError (Text "Failed to connect to tasmota device: "))).
Proof.
  split; [| split].
  - apply (proj1 (connect_probe_failure Sample.status_code Sample.render
                    "192.168.0.10/" None None 30 (Sample.answering Sample.warning) []
                    [cm_request Sample.plug "Status "]
                    (command_failed Sample.warning) eq_refl eq_refl));
      reflexivity.
  - apply (proj1 (proj2 (connect_probe_failure Sample.status_code Sample.render
                    "192.168.0.10/" (Some "admin") (Some "1234") 30
                    (Sample.answering Sample.warning) [] _
                    (command_failed Sample.warning) eq_refl eq_refl)));
      [reflexivity | discriminate].
  - apply (proj2 (proj2 (connect_probe_failure Sample.status_code Sample.render
                    "192.168.0.10/" None None 30 Sample.silent []
                    [cm_request Sample.plug "Status "]
                    (HttpClientError TimeoutError) eq_refl eq_refl))).
    reflexivity.
Defined.

(** ** C8: the URL [connect] keeps *)

Lemma rstrip_slash_decomp url :
  exists n, url = rstrip_slash url ++ slashes n.
Proof.
  induction url as [ | c s IH]; [now exists 0%nat |].
  destruct IH as [n IH]. simpl.
  destruct (rstrip_slash s) as [ | a r] eqn:Hr.
  - simpl in IH. destruct (Ascii.eqb_spec c "/") as [-> | _].
    + exists (S n). simpl. now rewrite IH at 1.
    + exists n. simpl. now rewrite IH at 1.
  - exists n. simpl. now rewrite IH at 1.
Qed.

Lemma rstrip_slash_no_trailing url :
  ends_with_slash (rstrip_slash url) = false.
Proof.
  induction url as [ | c s IH]; [reflexivity |].
  simpl. destruct (rstrip_slash s) as [ | a r] eqn:Hr.
  - destruct (Ascii.eqb c "/") eqn:Hc; [reflexivity |]. simpl. exact Hc.
  - exact IH.
Qed.

Lemma length_append_string (a b : string) :
  String.length (a ++ b) = (String.length a + String.length b)%nat.
Proof. induction a as [ | c a IH]; simpl; [reflexivity | now rewrite IH]. Qed.

(** C8, as stated, fails: in [ftp://plug.lan/] a scheme is present, and
    [connect] puts [http://] in front all the same; so it does before the
    upper-case spelling of the https scheme, and before [http://] itself,
    of which the stripping leaves [http:]. *)
Lemma connect_url_prefixes_present_scheme :
  scheme_present "ftp://plug.lan/" = true
  /\ connect_url "ftp://plug.lan/" = "http://ftp://plug.lan"
  /\ connect_url "ftp://plug.lan/" <> spec_connect_url "ftp://plug.lan/"
  /\ connect_url "HTTPS://plug.lan" = "http://HTTPS://plug.lan"
  /\ connect_url "http://" = "http://http:".
Proof. repeat split. discriminate. Qed.

(** C8, amended.  For every input URL, [connect] removes all trailing
    slashes and then puts [http://] in front if and only if what is left
    does not start with the text [http://] or [https://], in lower case;
    so a URL that starts with one of the two after the slashes are removed
    is kept without a second prefix. *)
Theorem connect_url_spec :
  forall url : string,
    let u := rstrip_slash url in
    (exists n, url = u ++ slashes n)
    /\ ends_with_slash u = false
    /\ (startswith u "http://" = true \/ startswith u "https://" = true ->
        connect_url url = u)
    /\ (connect_url url = "http://" ++ u <->
        startswith u "http://" = false /\ startswith u "https://" = false)
    /\ (forall username password timeout,
          _url (configured url username password timeout) = connect_url url).
Proof.
  intros url u.
  split; [apply rstrip_slash_decomp |].
  split; [apply rstrip_slash_no_trailing |].
  assert (Hlen : u <> "http://" ++ u).
  { intros H. apply (f_equal String.length) in H.
    rewrite length_append_string in H. simpl in H. lia. }
  split; [| split; [| intros; reflexivity]].
  - intros H. unfold connect_url. fold u.
    destruct H as [-> | ->]; [reflexivity |].
    now rewrite andb_false_r.
  - unfold connect_url. fold u.
    destruct (startswith u "http://"), (startswith u "https://"); cbn [negb andb].
    all: split; [intros H | intros [? ?]]; try discriminate; try now elim Hlen.
    + split; reflexivity.
    + reflexivity.
Qed.

Lemma connect_url_spec_witness :
  connect_url "https://plug.lan//" = "https://plug.lan"
  /\ connect_url "192.168.0.10/" = "http://192.168.0.10".
Proof.
  split.
  - apply (proj1 (proj2 (proj2 (connect_url_spec "https://plug.lan//")))).
    right. reflexivity.
  - apply (proj1 (proj2 (proj2 (proj2 (connect_url_spec "192.168.0.10/"))))).
    split; reflexivity.
Defined.

(** * Further properties of the code *)

(** ** The transport *)

(** [send_raw_request] returns a value in one case only: the response has
    status 200 and a body that parses as JSON; the value is the parsed
    body. *)
Theorem send_raw_request_returns_iff :
  forall (self : TasmotaDevice) (command : string) (dev : device)
         (log : list request) (j : json),
    snd (send_raw_request self command dev log) = Ok j <->
    exists text, dev (cm_request self command) = Response 200 (Some j) text.
Proof.
  intros self command dev log j. split.
  - unfold send_raw_request, bind, http_get.
    destruct (dev (cm_request self command)) as [f | status body text]; simpl;
      [discriminate |].
    destruct (Z.eqb_spec status 200) as [-> | _]; simpl; [| discriminate].
    destruct body as [j' | ]; simpl; [| discriminate].
    intros [= ->]. now exists text.
  - intros [text H]. now rewrite (send_raw_request_ok _ _ _ _ _ _ H).
Qed.

Lemma send_raw_request_returns_iff_witness :
  snd (send_raw_request Sample.plug "Status 0"
         (Sample.answering (JDict [("Status", JDict [])])) [])
  = Ok (JDict [("Status", JDict [])]).
Proof.
  apply (proj2 (send_raw_request_returns_iff Sample.plug "Status 0"
                  (Sample.answering (JDict [("Status", JDict [])])) []
                  (JDict [("Status", JDict [])]))).
  exists "". reflexivity.
Defined.

(** A response whose status is not 200 raises [CommandError] naming the
    status, whatever its body: a body that is valid JSON is not looked
    at. *)
Theorem send_raw_request_bad_status :
  forall (self : TasmotaDevice) (command : string) (dev : device)
         (log : list request) (status : Z) (body : option json) (text : string),
    status <> 200 ->
    dev (cm_request self command) = Response status body text ->
    send_raw_request self command dev log =
      ((log ++ [cm_request self command])%list,
       Raise (CommandError (Text ("Unexpected HTTP status " ++ str_int status
                                    ++ ": " ++ text)))).
Proof.
  intros self command dev log status body text Hs Hdev.
  unfold send_raw_request, bind, http_get. rewrite Hdev.
  apply Z.eqb_neq in Hs. now rewrite Hs.
Qed.

Lemma send_raw_request_bad_status_witness :
  send_raw_request Sample.plug "Power"
    (fun _ => Response 401 (Some Sample.warning) "<coroutine>") []
  = ([cm_request Sample.plug "Power"],
     Raise (CommandError (Text "Unexpected HTTP status 401: <coroutine>"))).
Proof.
  apply (send_raw_request_bad_status Sample.plug "Power"
           (fun _ => Response 401 (Some Sample.warning) "<coroutine>") []
           401 (Some Sample.warning) "<coroutine>").
  - discriminate.
  - reflexivity.
Defined.

(** ** One request for each accepted call *)

Lemma bind_send_log {A : Type} self command (k : json -> Net A) dev log :
  (forall j l, fst (k j dev l) = l) ->
  fst (bind (send_raw_request self command) k dev log)
    = (log ++ [cm_request self command])%list.
Proof.
  intros Hk. unfold bind.
  pose proof (send_raw_request_log self command dev log) as Hlog.
  destruct (send_raw_request self command dev log) as [l [j | e]]; simpl in *.
  - now rewrite Hk.
  - exact Hlog.
Qed.

Lemma forget_log {A : Type} (m : Net A) dev log :
  fst (forget m dev log) = fst (m dev log).
Proof.
  unfold forget, bind. now destruct (m dev log) as [l [a | e]].
Qed.

Lemma async_def_log {A : Type} (m : Net A) dev log :
  fst (async_def m dev log) = fst (m dev log).
Proof.
  unfold async_def, try_except.
  destruct (m dev log) as [l [a | e]]; [reflexivity |].
  destruct e; try reflexivity.
  now destruct (String.eqb cls "StopIteration").
Qed.

(** Close a goal [fst (k j dev l) = l] for a continuation made of
    [dget], tests, [ret] and [raise]. *)
Ltac pure_cont :=
  intros;
  repeat match goal with
         | |- context [dget ?j _ _] => is_var j; destruct j; unfold dget
         end;
  unfold dget, ret, raise, command_failed; simpl;
  repeat match goal with
         | |- context [if ?b then _ else _] => destruct b; simpl
         end;
  try reflexivity.

(** Every call whose arguments are accepted sends exactly one request, the
    one that carries its command to [<url>/cm] with the credentials and
    the timeout of the instance, whatever the device answers. *)
Theorem accepted_call_sends_one_request :
  forall (PowerType_value : PowerType -> string)
         (StatusType_value : StatusType -> string)
         (self : TasmotaDevice) (c : facade_call) (dev : device) (log : list request),
    outside_domain c = false ->
    fst (call PowerType_value StatusType_value self c dev log)
      = (log ++ [cm_request self (command_of PowerType_value StatusType_value c)])%list.
Proof.
  intros pv sv self c dev log H.
  destruct c as [ | v | | v | o | v o | o | v o | s ]; simpl in H;
    unfold call; rewrite forget_log.
  - unfold get_blink_count. apply bind_send_log. pure_cont.
  - unfold set_blink_count. rewrite Z.gtb_ltb, H. apply bind_send_log. pure_cont.
  - unfold get_blink_time. apply bind_send_log. pure_cont.
  - unfold set_blink_time. rewrite Z.gtb_ltb, H. apply bind_send_log. pure_cont.
  - destruct o as [ | o | | | ]; try discriminate.
    unfold get_power. cbn [_isValidEnumValue negb command_of].
    apply bind_send_log. pure_cont.
  - destruct v as [v | | | | ]; try discriminate;
      destruct o as [ | o | | | ]; try discriminate.
    cbn [_isValidEnumValue negb orb] in H.
    unfold set_power. cbn [_isValidEnumValue negb command_of].
    assert (Hb : (PowerType_is v BLINK || PowerType_is v BLINK_OFF)
                 && PowerOutputType_is o ALL_OUTPUTS = false)
      by (destruct v, o; simpl in H |- *; congruence).
    rewrite Hb. apply bind_send_log.
    intros j l. destruct j; try reflexivity.
    unfold dget. destruct (is_None (get d _)); [reflexivity |].
    destruct v; pure_cont.
  - destruct o as [ | | o | | ]; try discriminate.
    unfold get_friendly_name. cbn [_isValidEnumValue negb command_of].
    apply bind_send_log. pure_cont.
  - destruct o as [ | | o | | ]; try discriminate.
    cbn [_isValidEnumValue negb orb] in H.
    unfold set_friendly_name, len. cbn [_isValidEnumValue negb command_of].
    rewrite Z.gtb_ltb, H. apply bind_send_log. pure_cont.
  - destruct s as [ | | | k | ]; try discriminate.
    unfold get_status. rewrite async_def_log.
    cbn [_isValidEnumValue negb command_of].
    apply bind_send_log.
    intros j l. unfold bind, next_iter, contains, ret, raise.
    destruct j as [ | | | | [ | c0 s0] | [ | x xs] | [ | [k0 v0] d0] ]; try reflexivity.
    + now destruct (str_in "Status" (String c0 "")).
    + destruct x; try reflexivity;
        match goal with |- context [if ?b then _ else _] => now destruct b end.
    + now destruct (str_in "Status" k0).
Qed.

Lemma accepted_call_sends_one_request_witness :
  fst (call Sample.power_code Sample.status_code
         (configured "plug.lan" (Some "admin") (Some "1234") 10)
         (SetPower (APowerType ON) (APowerOutputType (OUTPUT 2))) Sample.silent [])
  = [ {| req_url := "http://plug.lan/cm";
         req_params := [("cmnd", "POWER2 1"); ("user", "admin"); ("password", "1234")];
         req_timeout := 10 |} ].
Proof.
  apply (accepted_call_sends_one_request Sample.power_code Sample.status_code
           (configured "plug.lan" (Some "admin") (Some "1234") 10)
           (SetPower (APowerType ON) (APowerOutputType (OUTPUT 2))) Sample.silent []).
  reflexivity.
Defined.

(** ** Failures of the transport inside the wrappers *)

Lemma bind_send_raise {A : Type} self command (k : json -> Net A) dev log e :
  snd (send_raw_request self command dev log) = Raise e ->
  snd (bind (send_raw_request self command) k dev log) = Raise e.
Proof.
  intros H. unfold bind.
  destruct (send_raw_request self command dev log) as [l [j | e']]; simpl in *;
    [discriminate | now injection H as ->].
Qed.

Lemma forget_snd_raise {A : Type} (m : Net A) dev log e :
  snd (m dev log) = Raise e -> snd (forget m dev log) = Raise e.
Proof.
  intros H. unfold forget, bind.
  destruct (m dev log) as [l [a | e']]; simpl in *;
    [discriminate | now injection H as ->].
Qed.

Lemma async_def_snd_raise {A : Type} (m : Net A) dev log e :
  snd (m dev log) = Raise e ->
  (forall cls msg, e <> PyError cls msg) ->
  snd (async_def m dev log) = Raise e.
Proof.
  intros H He. unfold async_def, try_except.
  destruct (m dev log) as [l [a | e']]; simpl in *; [discriminate |].
  injection H as ->. destruct e; try reflexivity.
  now elim (He cls msg).
Qed.

(** No wrapper catches what the transport raises: when the arguments are
    accepted and [send_raw_request] fails on the command, with the
    exception of the HTTP client or with its own [CommandError], the
    wrapper fails with that same exception. *)
Theorem transport_failure_passes_through :
  forall (PowerType_value : PowerType -> string)
         (StatusType_value : StatusType -> string)
         (self : TasmotaDevice) (c : facade_call) (dev : device)
         (log : list request) (e : exn),
    outside_domain c = false ->
    snd (send_raw_request self (command_of PowerType_value StatusType_value c) dev log)
      = Raise e ->
    snd (call PowerType_value StatusType_value self c dev log) = Raise e.
Proof.
  intros pv sv self c dev log e H He.
  destruct c as [ | v | | v | o | v o | o | v o | s ]; simpl in H;
    unfold call; apply forget_snd_raise.
  - now apply bind_send_raise.
  - unfold set_blink_count. rewrite Z.gtb_ltb, H. now apply bind_send_raise.
  - now apply bind_send_raise.
  - unfold set_blink_time. rewrite Z.gtb_ltb, H. now apply bind_send_raise.
  - destruct o as [ | o | | | ]; try discriminate.
    unfold get_power. cbn [_isValidEnumValue negb].
    now apply bind_send_raise.
  - destruct v as [v | | | | ]; try discriminate;
      destruct o as [ | o | | | ]; try discriminate.
    cbn [_isValidEnumValue negb orb] in H.
    unfold set_power. cbn [_isValidEnumValue negb].
    assert (Hb : (PowerType_is v BLINK || PowerType_is v BLINK_OFF)
                 && PowerOutputType_is o ALL_OUTPUTS = false)
      by (destruct v, o; simpl in H |- *; congruence).
    rewrite Hb. now apply bind_send_raise.
  - destruct o as [ | | o | | ]; try discriminate.
    unfold get_friendly_name. cbn [_isValidEnumValue negb].
    now apply bind_send_raise.
  - destruct o as [ | | o | | ]; try discriminate.
    cbn [_isValidEnumValue negb orb] in H.
    unfold set_friendly_name, len. cbn [_isValidEnumValue negb].
    rewrite Z.gtb_ltb, H. now apply bind_send_raise.
  - destruct s as [ | | | k | ]; try discriminate.
    unfold get_status. apply async_def_snd_raise.
    + cbn [_isValidEnumValue negb]. now apply bind_send_raise.
    + intros cls msg ->.
      destruct (send_raw_request_raises _ _ _ _ _ He) as [[m Hm] | [f Hf]];
        discriminate.
Qed.

Lemma transport_failure_passes_through_witness :
  snd (call Sample.power_code Sample.status_code Sample.plug
         (GetFriendlyName (AFriendlyNameOutputType (NAME_OUTPUT 1))) Sample.silent [])
  = Raise (HttpClientError TimeoutError).
Proof.
  apply (transport_failure_passes_through Sample.power_code Sample.status_code
           Sample.plug (GetFriendlyName (AFriendlyNameOutputType (NAME_OUTPUT 1)))
           Sample.silent [] (HttpClientError TimeoutError));
    reflexivity.
Defined.

(** ** [connect] *)

(** A first key that holds ["Status"] makes the probe succeed. *)
Lemma get_status_run sv self kind dev log key v rest text :
  dev (cm_request self ("Status " ++ sv kind))
    = Response 200 (Some (JDict ((key, v) :: rest))) text ->
  get_status sv self (AStatusType kind) dev log =
    ((log ++ [cm_request self ("Status " ++ sv kind)])%list,
     if str_in "Status" key then Ok (JDict ((key, v) :: rest))
     else Raise (command_failed (JDict ((key, v) :: rest)))).
Proof.
  intros Hdev.
  unfold get_status, async_def, try_except. cbn -[send_raw_request str_in].
  sent Hdev.
  unfold bind, next_iter, contains, ret, raise.
  now destruct (str_in "Status" key).
Qed.

Lemma str_in_app_r needle p s :
  str_in needle s = true -> str_in needle (p ++ s) = true.
Proof.
  intros H. induction p as [ | c p IH]; [exact H |].
  simpl. rewrite IH. apply orb_true_r.
Qed.

(** With only one of username and password given, [connect] raises
    [ValueError] and sends nothing: the device is not probed. *)
Theorem connect_half_credentials :
  forall (StatusType_value : StatusType -> string) (repr : json -> string)
         (url : string) (username password : option string) (timeout : Z)
         (dev : device) (log : list request),
    is_none username <> is_none password ->
    connect StatusType_value repr url username password timeout dev log =
      (log, Raise (ValueError (Text
         "Username and password must either be both not set or both set!"))).
Proof.
  intros sv repr url username password timeout dev log H.
  unfold connect.
  destruct username, password; simpl in H |- *; try reflexivity; now elim H.
Qed.

Lemma connect_half_credentials_witness :
  connect Sample.status_code Sample.render "plug.lan" (Some "admin") None 30
    (Sample.answering (JDict [("Status", JDict [])])) []
  = ([], Raise (ValueError (Text
       "Username and password must either be both not set or both set!"))).
Proof.
  apply (connect_half_credentials Sample.status_code Sample.render "plug.lan"
           (Some "admin") None 30).
  discriminate.
Defined.

(** When the probe is answered by a mapping whose first key holds
    ["Status"], [connect] returns the instance after that one request:
    the normalized URL, the timeout, and the credentials as the
    parameters [user] and [password] of every later request, or no
    parameter besides the command when none were given. *)
Theorem connect_success :
  forall (StatusType_value : StatusType -> string) (repr : json -> string)
         (url : string) (username password : option string) (timeout : Z)
         (dev : device) (log : list request)
         (key : string) (v : json) (rest : dict) (text : string),
    is_none username = is_none password ->
    dev (cm_request (configured url username password timeout)
           ("Status " ++ StatusType_value ABBREVIATED))
      = Response 200 (Some (JDict ((key, v) :: rest))) text ->
    str_in "Status" key = true ->
    exists self,
      connect StatusType_value repr url username password timeout dev log =
        ((log ++ [cm_request self ("Status " ++ StatusType_value ABBREVIATED)])%list,
         Ok self)
      /\ _url self = connect_url url
      /\ _timeout self = timeout
      /\ (forall command,
            req_params (cm_request self command) =
              match username, password with
              | Some u, Some p => [("cmnd", command); ("user", u); ("password", p)]
              | _, _ => [("cmnd", command)]
              end).
Proof.
  intros sv repr url username password timeout dev log key v rest text Hc Hdev Hk.
  exists (configured url username password timeout).
  split; [| split; [reflexivity | split; [reflexivity |]]].
  - unfold connect. rewrite Hc, Bool.eqb_reflx. cbn [negb].
    unfold bind, try_except.
    rewrite (get_status_run _ _ _ _ _ _ _ _ _ Hdev), Hk. reflexivity.
  - intros command. destruct username, password; try reflexivity; discriminate.
Qed.

Lemma connect_success_witness :
  exists self,
    connect Sample.status_code Sample.render "plug.lan/" (Some "admin") (Some "1234") 5
      (Sample.answering (JDict [("Status", JDict [("Module", JInt 1)])])) []
    = ([cm_request self "Status "], Ok self)
    /\ _url self = "http://plug.lan"
    /\ _timeout self = 5
    /\ (forall command,
          req_params (cm_request self command) =
            [("cmnd", command); ("user", "admin"); ("password", "1234")]).
Proof.
  apply (connect_success Sample.status_code Sample.render "plug.lan/"
           (Some "admin") (Some "1234") 5
           (Sample.answering (JDict [("Status", JDict [("Module", JInt 1)])])) []
           "Status" (JDict [("Module", JInt 1)]) [] "");
    reflexivity.
Defined.

(** Whatever the device does, [connect] fails with [ValueError],
    [AuthenticationError] or [ConnectionError] only: a [CommandError] or
    an exception of the HTTP client raised by the probe never leaves it as
    such. *)
Theorem connect_raises_only :
  forall (StatusType_value : StatusType -> string) (repr : json -> string)
         (url : string) (username password : option string) (timeout : Z)
         (dev : device) (log : list request) (e : exn),
    snd (connect StatusType_value repr url username password timeout dev log) = Raise e ->
    exists m, e = ValueError m \/ e = AuthenticationError m \/ e = ConnectionError m.
Proof.
  intros sv repr url username password timeout dev log e.
  unfold connect.
  destruct (negb (Bool.eqb (is_none username) (is_none password))).
  - intros [= <-]. eauto.
  - unfold bind, try_except.
    destruct (get_status sv (configured url username password timeout)
                (AStatusType ABBREVIATED) dev log) as [l [j | e']]; simpl.
    + discriminate.
    + destruct (str_in auth_prompt (str_exn repr e')).
      * destruct (is_none password); intros [= <-]; eauto.
      * intros [= <-]. eauto.
Qed.

Lemma connect_raises_only_witness :
  snd (connect Sample.status_code Sample.render "plug.lan" None None 30
         Sample.silent [])
    = Raise (ConnectionError (Text "Failed to connect to tasmota device: "))
  /\ exists m,
    ConnectionError (Text "Failed to connect to tasmota device: ") = ValueError m
    \/ ConnectionError (Text "Failed to connect to tasmota device: ")
       = AuthenticationError m
    \/ ConnectionError (Text "Failed to connect to tasmota device: ")
       = ConnectionError m.
Proof.
  split; [reflexivity |].
  apply (connect_raises_only Sample.status_code Sample.render "plug.lan" None None 30
           Sample.silent []).
  reflexivity.
Defined.

(** A device that answers the probe with a mapping whose first key lacks
    ["Status"] and whose rendering holds the authentication prompt is
    reported as an authentication failure: credentials required when none
    were given, invalid when some were. *)
Theorem connect_prompt_in_reply :
  forall (StatusType_value : StatusType -> string) (repr : json -> string)
         (url : string) (username password : option string) (timeout : Z)
         (dev : device) (log : list request)
         (key : string) (v : json) (rest : dict) (text : string),
    is_none username = is_none password ->
    dev (cm_request (configured url username password timeout)
           ("Status " ++ StatusType_value ABBREVIATED))
      = Response 200 (Some (JDict ((key, v) :: rest))) text ->
    str_in "Status" key = false ->
    str_in auth_prompt (repr (JDict ((key, v) :: rest))) = true ->
    snd (connect StatusType_value repr url username password timeout dev log) =
      Raise (AuthenticationError (Text
        (if is_none password
         then "Username (usually admin) and password are required"
         else "Username and / or password are invalid"))).
Proof.
  intros sv repr url username password timeout dev log key v rest text Hc Hdev Hk Hp.
  unfold connect. rewrite Hc, Bool.eqb_reflx. cbn [negb].
  unfold bind, try_except.
  rewrite (get_status_run _ _ _ _ _ _ _ _ _ Hdev), Hk.
  cbn [command_failed str_exn str_message].
  rewrite (str_in_app_r _ "Command failed: " _ Hp).
  now destruct (is_none password).
Qed.

Lemma connect_prompt_in_reply_witness :
  snd (connect Sample.status_code Sample.render "plug.lan" (Some "admin") (Some "bad") 30
         (Sample.answering Sample.warning) [])
  = Raise (AuthenticationError (Text "Username and / or password are invalid")).
Proof.
  apply (connect_prompt_in_reply Sample.status_code Sample.render "plug.lan"
           (Some "admin") (Some "bad") 30 (Sample.answering Sample.warning) []
           "WARNING" (JStr "Need user=<username>&password=<password>") [] "");
    reflexivity.
Defined.

(** ** The normalized URL *)

Lemma rstrip_slash_fixed s :
  ends_with_slash s = false -> rstrip_slash s = s.
Proof.
  induction s as [ | c s IH]; [reflexivity |].
  simpl. destruct s as [ | a r].
  - simpl. now intros ->.
  - intros H. now rewrite (IH H).
Qed.

Lemma ends_with_slash_app p u :
  u <> "" -> ends_with_slash (p ++ u) = ends_with_slash u.
Proof.
  intros Hu. induction p as [ | c p IH]; [reflexivity |].
  simpl. destruct (p ++ u) eqn:E; [| exact IH].
  destruct p; simpl in E; [now elim Hu | discriminate].
Qed.

Lemma connect_url_scheme url :
  startswith (connect_url url) "http://" = true
  \/ startswith (connect_url url) "https://" = true.
Proof.
  unfold connect_url.
  destruct (startswith (rstrip_slash url) "http://") eqn:H1;
    [left; exact H1 |].
  destruct (startswith (rstrip_slash url) "https://") eqn:H2;
    [right; exact H2 |].
  left. cbn [negb andb]. unfold startswith. simpl.
  now destruct (rstrip_slash url).
Qed.

(** The URL [connect] keeps always begins with [http://] or
    [https://]. *)
Theorem connect_url_has_scheme :
  forall url : string,
    startswith (connect_url url) "http://" = true
    \/ startswith (connect_url url) "https://" = true.
Proof. exact connect_url_scheme. Qed.

(** Unless the input is empty or made of slashes only, the URL [connect]
    keeps does not end with a slash, so that [<url>/cm] has a single slash
    before [cm]; and normalizing it once more changes nothing. *)
Theorem connect_url_stable :
  forall url : string,
    rstrip_slash url <> "" ->
    ends_with_slash (connect_url url) = false
    /\ connect_url (connect_url url) = connect_url url.
Proof.
  intros url Hu.
  assert (Hend : ends_with_slash (connect_url url) = false).
  { unfold connect_url.
    destruct (negb (startswith (rstrip_slash url) "http://")
              && negb (startswith (rstrip_slash url) "https://")).
    - rewrite (ends_with_slash_app _ _ Hu). apply rstrip_slash_no_trailing.
    - apply rstrip_slash_no_trailing. }
  split; [exact Hend |].
  unfold connect_url at 1. rewrite (rstrip_slash_fixed _ Hend).
  destruct (connect_url_scheme url) as [-> | ->]; [reflexivity |].
  now rewrite andb_false_r.
Qed.

Lemma connect_url_stable_witness :
  ends_with_slash (connect_url "plug.lan:8080///") = false
  /\ connect_url (connect_url "plug.lan:8080///") = connect_url "plug.lan:8080///".
Proof.
  apply (connect_url_stable "plug.lan:8080///").
  discriminate.
Defined.

(** ** Integers in commands *)

(** [str] of an int can be read back: two integers with the same decimal
    text are equal. *)
Lemma str_int_inj a b : str_int a = str_int b -> a = b.
Proof.
  unfold str_int. intros H.
  assert (Hnil : forall z, Z.to_int z <> Decimal.Pos Decimal.Nil
                        /\ Z.to_int z <> Decimal.Neg Decimal.Nil).
  { intros [ | p | p]; simpl; split; try discriminate;
      intros [= E]; now apply (DecimalPos.Unsigned.to_uint_nonnil p). }
  apply DecimalZ.to_int_inj.
  assert (E : Some (Z.to_int a) = Some (Z.to_int b)).
  { rewrite <- (NilZero.isi (Z.to_int a)) by apply Hnil.
    rewrite <- (NilZero.isi (Z.to_int b)) by apply Hnil.
    now rewrite H. }
  now injection E.
Qed.

Lemma set_blink_count_log self v dev log :
  0 <= v <= 32000 ->
  fst (set_blink_count self v dev log)
    = (log ++ [cm_request self ("BlinkCount " ++ str_int v)])%list.
Proof.
  intros Hv. unfold set_blink_count.
  replace ((v <? 0) || (v >? 32000)) with false
    by (symmetry; rewrite Z.gtb_ltb; apply orb_false_intro; apply Z.ltb_ge; lia).
  apply bind_send_log. pure_cont.
Qed.

(** The value can be read back from what [set_blink_count] sends: two
    accepted values that lead to the same request are equal. *)
Theorem set_blink_count_request_determines_value :
  forall (self : TasmotaDevice) (v w : Z) (dev : device) (log : list request),
    0 <= v <= 32000 -> 0 <= w <= 32000 ->
    fst (set_blink_count self v dev log) = fst (set_blink_count self w dev log) ->
    v = w.
Proof.
  intros self v w dev log Hv Hw.
  rewrite (set_blink_count_log _ _ _ _ Hv), (set_blink_count_log _ _ _ _ Hw).
  intros H. apply app_inv_head in H. injection H as H.
  now apply str_int_inj.
Qed.

Lemma set_blink_count_request_determines_value_witness :
  fst (set_blink_count Sample.plug 12 Sample.silent [])
    = fst (set_blink_count Sample.plug (7 + 5) Sample.silent [])
  /\ 12 = 7 + 5.
Proof.
  split; [reflexivity |].
  apply (set_blink_count_request_determines_value Sample.plug 12 (7 + 5)
           Sample.silent []); [lia | lia | reflexivity].
Defined.

(** ** [set_blink_time] and [set_friendly_name] *)

(** For 2 <= v <= 3600, [set_blink_time(v)] sends ["BlinkTime v"]; on a
    reply that is a mapping it returns v when the value under
    ["BlinkTime"] equals v by Python's [==] and raises [CommandError] with
    the reply otherwise.  Below 2 and above 3600 it raises [ValueError] and
    sends nothing: 0 and 1 are refused. *)
Theorem set_blink_time_spec :
  forall (self : TasmotaDevice) (v : Z) (dev : device) (log : list request),
    (2 <= v <= 3600 ->
     forall (d : dict) (text : string),
       dev (cm_request self ("BlinkTime " ++ str_int v)) = Response 200 (Some (JDict d)) text ->
       set_blink_time self v dev log =
         ((log ++ [cm_request self ("BlinkTime " ++ str_int v)])%list,
          if eq_int (get d "BlinkTime") v then Ok v
          else Raise (command_failed (JDict d))))
    /\
    (v < 2 \/ 3600 < v ->
     set_blink_time self v dev log =
       (log, Raise (ValueError (Text "Value must be between 2 and 3600")))).
Proof.
  intros self v dev log. split.
  - intros Hv d text Hdev. unfold set_blink_time.
    replace ((v <? 2) || (v >? 3600)) with false
      by (symmetry; rewrite Z.gtb_ltb; apply orb_false_intro; apply Z.ltb_ge; lia).
    sent Hdev. unfold dget. now destruct (eq_int (get d "BlinkTime") v).
  - intros Hv. unfold set_blink_time.
    replace ((v <? 2) || (v >? 3600)) with true; [reflexivity |].
    symmetry. rewrite Z.gtb_ltb. apply orb_true_iff.
    destruct Hv; [left | right]; now apply Z.ltb_lt.
Qed.

Lemma set_blink_time_spec_witness :
  set_blink_time Sample.plug 3600 (Sample.answering (JDict [("BlinkTime", JInt 3600)])) []
    = ([cm_request Sample.plug "BlinkTime 3600"], Ok 3600)
  /\ set_blink_time Sample.plug 1 (Sample.answering (JDict [("BlinkTime", JInt 1)])) []
    = ([], Raise (ValueError (Text "Value must be between 2 and 3600"))).
Proof.
  split.
  - apply (proj1 (set_blink_time_spec Sample.plug 3600
                    (Sample.answering (JDict [("BlinkTime", JInt 3600)])) [])
             ltac:(lia) [("BlinkTime", JInt 3600)] "" eq_refl).
  - apply (proj2 (set_blink_time_spec Sample.plug 1
                    (Sample.answering (JDict [("BlinkTime", JInt 1)])) [])).
    left. lia.
Defined.

Lemma set_friendly_name_run self name o dev log d text :
  (String.length name <= 32)%nat ->
  dev (cm_request self ("FriendlyName" ++ FriendlyNameOutputType_value o ++ " " ++ name))
    = Response 200 (Some (JDict d)) text ->
  set_friendly_name self name (AFriendlyNameOutputType o) dev log =
    ((log ++ [cm_request self
                ("FriendlyName" ++ FriendlyNameOutputType_value o ++ " " ++ name)])%list,
     match lookup d ("FriendlyName" ++ FriendlyNameOutputType_value o) with
     | Some (JStr t) => if String.eqb t name then Ok name
                        else Raise (command_failed (JDict d))
     | _ => Raise (command_failed (JDict d))
     end).
Proof.
  intros Hlen Hdev.
  unfold set_friendly_name, len. cbn [_isValidEnumValue negb].
  replace (Z.of_nat (String.length name) >? 32) with false
    by (symmetry; rewrite Z.gtb_ltb; apply Z.ltb_ge; lia).
  sent Hdev. unfold dget, get.
  destruct (lookup d ("FriendlyName" ++ FriendlyNameOutputType_value o)) as [[] | ];
    try reflexivity.
  simpl. now destruct (String.eqb s name).
Qed.

(** For a name of at most 32 characters, the empty name included,
    [set_friendly_name] sends ["FriendlyName<n> <name>"]; on a reply that
    is a mapping it returns the name when the value under
    ["FriendlyName<n>"] is that very text and raises [CommandError] with
    the reply otherwise. *)
Theorem set_friendly_name_spec :
  forall (self : TasmotaDevice) (name : string) (o : FriendlyNameOutputType)
         (dev : device) (log : list request) (d : dict) (text : string),
    (String.length name <= 32)%nat ->
    dev (cm_request self ("FriendlyName" ++ FriendlyNameOutputType_value o ++ " " ++ name))
      = Response 200 (Some (JDict d)) text ->
    set_friendly_name self name (AFriendlyNameOutputType o) dev log =
      ((log ++ [cm_request self
                  ("FriendlyName" ++ FriendlyNameOutputType_value o ++ " " ++ name)])%list,
       match lookup d ("FriendlyName" ++ FriendlyNameOutputType_value o) with
       | Some (JStr t) => if String.eqb t name then Ok name
                          else Raise (command_failed (JDict d))
       | _ => Raise (command_failed (JDict d))
       end).
Proof. intros. now apply (set_friendly_name_run _ _ _ _ _ _ text). Qed.

Lemma set_friendly_name_spec_witness :
  set_friendly_name Sample.plug "Kitchen Light" (AFriendlyNameOutputType (NAME_OUTPUT 1))
    (Sample.answering (JDict [("FriendlyName1", JStr "Kitchen Light")])) []
  = ([cm_request Sample.plug "FriendlyName1 Kitchen Light"], Ok "Kitchen Light").
Proof.
  apply (set_friendly_name_spec Sample.plug "Kitchen Light" (NAME_OUTPUT 1)
           (Sample.answering (JDict [("FriendlyName1", JStr "Kitchen Light")])) []
           [("FriendlyName1", JStr "Kitchen Light")] "").
  - simpl. lia.
  - reflexivity.
Defined.

(** Setting a name and reading it back: on a device that echoes the name
    to the set command and reports it to the get command, the two calls in
    a row send their two requests in that order and the second returns the
    name that was set. *)
Theorem friendly_name_round_trip :
  forall (self : TasmotaDevice) (name : string) (o : FriendlyNameOutputType)
         (dev : device) (log : list request) (text text' : string),
    (String.length name <= 32)%nat ->
    dev (cm_request self ("FriendlyName" ++ FriendlyNameOutputType_value o ++ " " ++ name))
      = Response 200
          (Some (JDict [("FriendlyName" ++ FriendlyNameOutputType_value o, JStr name)]))
          text ->
    dev (cm_request self ("FriendlyName" ++ FriendlyNameOutputType_value o))
      = Response 200
          (Some (JDict [("FriendlyName" ++ FriendlyNameOutputType_value o, JStr name)]))
          text' ->
    bind (set_friendly_name self name (AFriendlyNameOutputType o))
         (fun _ => get_friendly_name self (AFriendlyNameOutputType o)) dev log =
      ((log ++ [cm_request self
                  ("FriendlyName" ++ FriendlyNameOutputType_value o ++ " " ++ name);
                cm_request self ("FriendlyName" ++ FriendlyNameOutputType_value o)])%list,
       Ok (JStr name)).
Proof.
  intros self name o dev log text text' Hlen Hset Hget.
  set (key := "FriendlyName" ++ FriendlyNameOutputType_value o) in *.
  assert (Hk : lookup [(key, JStr name)] key = Some (JStr name))
    by (simpl; now rewrite String.eqb_refl).
  erewrite bind_ok.
  2: { rewrite (set_friendly_name_run self name o dev log _ text Hlen Hset).
       fold key. rewrite Hk, String.eqb_refl. reflexivity. }
  change (get_friendly_name self (AFriendlyNameOutputType o))
    with (run_getter self (FriendlyNameGetter o)).
  rewrite run_getter_read_key. cbn [getter_key]. fold key.
  rewrite (read_key_reply _ _ _ _ _ _ Hget), Hk.
  now rewrite <- app_assoc.
Qed.

Lemma friendly_name_round_trip_witness :
  bind (set_friendly_name Sample.plug "Kitchen Light" (AFriendlyNameOutputType (NAME_OUTPUT 1)))
       (fun _ => get_friendly_name Sample.plug (AFriendlyNameOutputType (NAME_OUTPUT 1)))
       (Sample.answering (JDict [("FriendlyName1", JStr "Kitchen Light")])) []
  = ([cm_request Sample.plug "FriendlyName1 Kitchen Light";
      cm_request Sample.plug "FriendlyName1"],
     Ok (JStr "Kitchen Light")).
Proof.
  apply (friendly_name_round_trip Sample.plug "Kitchen Light" (NAME_OUTPUT 1)
           (Sample.answering (JDict [("FriendlyName1", JStr "Kitchen Light")])) [] "" "").
  - simpl. lia.
  - reflexivity.
  - reflexivity.
Defined.

(** ** [get_power] and [set_power] on one output *)

Lemma output_code_not_zero n :
  String.eqb (PowerOutputType_value (OUTPUT n)) "0" = false.
Proof.
  apply String.eqb_neq. intros H.
  assert (E : Z.pos n = 0) by (apply str_int_inj; exact H).
  discriminate.
Qed.

Lemma get_power_output_run self n dev log d text :
  dev (cm_request self ("POWER" ++ PowerOutputType_value (OUTPUT n)))
    = Response 200 (Some (JDict d)) text ->
  get_power self (APowerOutputType (OUTPUT n)) dev log =
    ((log ++ [cm_request self ("POWER" ++ PowerOutputType_value (OUTPUT n))])%list,
     let x := get d ("POWER" ++ PowerOutputType_value (OUTPUT n)) in
     if eq_str x "ON" || eq_str x "OFF" then Ok x
     else Raise (command_failed (JDict d))).
Proof.
  intros Hdev. unfold get_power.
  cbn [_isValidEnumValue negb]. sent Hdev.
  rewrite output_code_not_zero. unfold dget. cbv zeta.
  destruct (eq_str (get d _) "ON"); [reflexivity |].
  destruct (eq_str (get d _) "OFF"); reflexivity.
Qed.

(** On one output n, [get_power] sends ["POWER<n>"]; on a reply that is a
    mapping it returns the value under ["POWER<n>"] when that is the text
    ["ON"] or ["OFF"] and raises [CommandError] with the reply otherwise,
    a missing key included. *)
Theorem get_power_output_spec :
  forall (self : TasmotaDevice) (n : positive) (dev : device) (log : list request)
         (d : dict) (text : string),
    dev (cm_request self ("POWER" ++ PowerOutputType_value (OUTPUT n)))
      = Response 200 (Some (JDict d)) text ->
    get_power self (APowerOutputType (OUTPUT n)) dev log =
      ((log ++ [cm_request self ("POWER" ++ PowerOutputType_value (OUTPUT n))])%list,
       let x := get d ("POWER" ++ PowerOutputType_value (OUTPUT n)) in
       if eq_str x "ON" || eq_str x "OFF" then Ok x
       else Raise (command_failed (JDict d))).
Proof. intros. now apply (get_power_output_run _ _ _ _ _ text). Qed.

Lemma get_power_output_spec_witness :
  get_power Sample.plug (APowerOutputType (OUTPUT 3))
    (Sample.answering (JDict [("POWER3", JStr "OFF")])) []
  = ([cm_request Sample.plug "POWER3"], Ok (JStr "OFF")).
Proof.
  apply (get_power_output_spec Sample.plug 3
           (Sample.answering (JDict [("POWER3", JStr "OFF")])) []
           [("POWER3", JStr "OFF")] "").
  reflexivity.
Defined.

Lemma eq_str_true x s : eq_str x s = true -> x = JStr s.
Proof.
  destruct x; simpl; try discriminate.
  intros H. apply String.eqb_eq in H. now subst.
Qed.

(** Whatever the device answers, what [get_power] returns for one output
    is the text ["ON"] or the text ["OFF"], nothing else. *)
Theorem get_power_output_returns_state :
  forall (self : TasmotaDevice) (n : positive) (dev : device) (log : list request)
         (x : json),
    snd (get_power self (APowerOutputType (OUTPUT n)) dev log) = Ok x ->
    x = JStr "ON" \/ x = JStr "OFF".
Proof.
  intros self n dev log x.
  unfold get_power. cbn [_isValidEnumValue negb].
  unfold bind.
  destruct (send_raw_request self _ dev log) as [l [j | e]]; [| discriminate].
  rewrite output_code_not_zero.
  destruct j; try discriminate.
  unfold dget, ret, raise.
  destruct (eq_str (get d _) "ON") eqn:Hon; simpl.
  - intros [= <-]. left. now apply eq_str_true.
  - destruct (eq_str (get d _) "OFF") eqn:Hoff; simpl; [| discriminate].
    intros [= <-]. right. now apply eq_str_true.
Qed.

Lemma get_power_output_returns_state_witness :
  snd (get_power Sample.plug (APowerOutputType (OUTPUT 1))
         (Sample.answering (JDict [("POWER1", JStr "ON")])) []) = Ok (JStr "ON")
  /\ (JStr "ON" = JStr "ON" \/ JStr "ON" = JStr "OFF").
Proof.
  split; [reflexivity |].
  apply (get_power_output_returns_state Sample.plug 1
           (Sample.answering (JDict [("POWER1", JStr "ON")])) []).
  reflexivity.
Defined.

Lemma set_power_accepted pv self v o dev log :
  blink_on_all v o = false ->
  set_power pv self (APowerType v) (APowerOutputType o) dev log =
    bind (send_raw_request self (("POWER" ++ PowerOutputType_value o) ++ " " ++ pv v))
      (fun response =>
         dget response ("POWER" ++ PowerOutputType_value o) (fun x =>
         if is_None x then raise (command_failed response)
         else
           match v with
           | OFF =>
               dget response ("POWER" ++ PowerOutputType_value o) (fun x =>
               if negb (eq_str x "OFF") then raise (command_failed response)
               else ret false)
           | ON =>
               dget response ("POWER" ++ PowerOutputType_value o) (fun x =>
               if negb (eq_str x "ON") then raise (command_failed response)
               else ret true)
           | TOGGLE =>
               dget response ("POWER" ++ PowerOutputType_value o) (fun x =>
               if negb (eq_str x "ON")
               then dget response "POWER" (fun y =>
                    if negb (eq_str y "OFF") then raise (command_failed response)
                    else dget response ("POWER" ++ PowerOutputType_value o)
                           (fun z => ret (eq_str z "ON")))
               else dget response ("POWER" ++ PowerOutputType_value o)
                      (fun z => ret (eq_str z "ON")))
           | BLINK =>
               dget response ("POWER" ++ PowerOutputType_value o) (fun x =>
               if negb (eq_str x "Blink ON") then raise (command_failed response)
               else ret true)
           | BLINK_OFF =>
               dget response ("POWER" ++ PowerOutputType_value o) (fun x =>
               if negb (eq_str x "Blink OFF") then raise (command_failed response)
               else ret true)
           end)) dev log.
Proof.
  unfold blink_on_all. intros H.
  unfold set_power. cbn [_isValidEnumValue negb]. now rewrite H.
Qed.

(** For OFF, ON, BLINK and BLINK_OFF, [set_power] sends
    ["POWER<n> <code>"] and, on a reply that is a mapping, compares the
    value under ["POWER<n>"] with one text: ["OFF"], ["ON"], ["Blink ON"],
    ["Blink OFF"].  When it is that text the call returns [False] for OFF
    and [True] for the other three; otherwise it raises [CommandError]
    with the reply. *)
Theorem set_power_reply_rule :
  forall (PowerType_value : PowerType -> string) (self : TasmotaDevice)
         (v : PowerType) (o : PowerOutputType) (dev : device) (log : list request)
         (d : dict) (text : string) (expected : string) (returned : bool),
    power_reply_rule v = Some (expected, returned) ->
    blink_on_all v o = false ->
    dev (cm_request self (("POWER" ++ PowerOutputType_value o) ++ " " ++ PowerType_value v))
      = Response 200 (Some (JDict d)) text ->
    set_power PowerType_value self (APowerType v) (APowerOutputType o) dev log =
      ((log ++ [cm_request self
                  (("POWER" ++ PowerOutputType_value o) ++ " " ++ PowerType_value v)])%list,
       if eq_str (get d ("POWER" ++ PowerOutputType_value o)) expected
       then Ok returned
       else Raise (command_failed (JDict d))).
Proof.
  intros pv self v o dev log d text expected returned Hrule Hb Hdev.
  rewrite (set_power_accepted _ _ _ _ _ _ Hb). sent Hdev.
  unfold dget.
  destruct (get d ("POWER" ++ PowerOutputType_value o)) as [ | | | | s | | ];
    destruct v; simpl in Hrule |- *; try discriminate;
    injection Hrule as <- <-; try reflexivity;
    match goal with |- context [String.eqb s ?t] => now destruct (String.eqb s t) end.
Qed.

Lemma set_power_reply_rule_witness :
  set_power Sample.power_code Sample.plug (APowerType BLINK) (APowerOutputType (OUTPUT 1))
    (Sample.answering (JDict [("POWER1", JStr "Blink ON")])) []
  = ([cm_request Sample.plug "POWER1 3"], Ok true).
Proof.
  apply (set_power_reply_rule Sample.power_code Sample.plug BLINK (OUTPUT 1)
           (Sample.answering (JDict [("POWER1", JStr "Blink ON")])) []
           [("POWER1", JStr "Blink ON")] "" "Blink ON" true);
    reflexivity.
Defined.

(** Whatever command is asked, TOGGLE included: when the reply is a
    mapping without the key ["POWER<n>"], or with null under it,
    [set_power] raises [CommandError] with the reply.  So it does on the
    reply [{"POWER": "ON"}], which has no key ["POWER1"]. *)
Theorem set_power_missing_key :
  forall (PowerType_value : PowerType -> string) (self : TasmotaDevice)
         (v : PowerType) (o : PowerOutputType) (dev : device) (log : list request)
         (d : dict) (text : string),
    blink_on_all v o = false ->
    dev (cm_request self (("POWER" ++ PowerOutputType_value o) ++ " " ++ PowerType_value v))
      = Response 200 (Some (JDict d)) text ->
    lookup d ("POWER" ++ PowerOutputType_value o) = None
      \/ lookup d ("POWER" ++ PowerOutputType_value o) = Some JNull ->
    set_power PowerType_value self (APowerType v) (APowerOutputType o) dev log =
      ((log ++ [cm_request self
                  (("POWER" ++ PowerOutputType_value o) ++ " " ++ PowerType_value v)])%list,
       Raise (command_failed (JDict d))).
Proof.
  intros pv self v o dev log d text Hb Hdev Hkey.
  rewrite (set_power_accepted _ _ _ _ _ _ Hb). sent Hdev.
  unfold dget, get. destruct Hkey as [-> | ->]; reflexivity.
Qed.

Lemma set_power_missing_key_witness :
  set_power Sample.power_code Sample.plug (APowerType TOGGLE) (APowerOutputType (OUTPUT 1))
    (Sample.answering (JDict [("POWER", JStr "ON")])) []
  = ([cm_request Sample.plug "POWER1 2"],
     Raise (command_failed (JDict [("POWER", JStr "ON")]))).
Proof.
  apply (set_power_missing_key Sample.power_code Sample.plug TOGGLE (OUTPUT 1)
           (Sample.answering (JDict [("POWER", JStr "ON")])) []
           [("POWER", JStr "ON")] "").
  - reflexivity.
  - reflexivity.
  - left. reflexivity.
Defined.

(** What [set_power] returns, whatever the device and the arguments: only
    [False] for OFF, only [True] for ON, BLINK and BLINK_OFF. *)
Theorem set_power_returned_value :
  forall (PowerType_value : PowerType -> string) (self : TasmotaDevice)
         (v : PowerType) (output : pyarg) (dev : device) (log : list request)
         (b : bool),
    snd (set_power PowerType_value self (APowerType v) output dev log) = Ok b ->
    match v with
    | OFF => b = false
    | ON | BLINK | BLINK_OFF => b = true
    | TOGGLE => True
    end.
Proof.
  intros pv self v output dev log b.
  destruct output as [ | o | | | ]; try discriminate.
  destruct (blink_on_all v o) eqn:Hb.
  - unfold set_power. cbn [_isValidEnumValue negb].
    unfold blink_on_all in Hb. rewrite Hb. discriminate.
  - rewrite (set_power_accepted _ _ _ _ _ _ Hb). unfold bind.
    destruct (send_raw_request self _ dev log) as [l [j | e]]; [| discriminate].
    destruct j; try discriminate.
    unfold dget, ret, raise.
    destruct (is_None (get d _)); [discriminate |].
    destruct v; try exact (fun _ => I);
      match goal with
      | |- context [if negb ?c then _ else _] =>
          destruct c; simpl; [now intros [= <-] | discriminate]
      end.
Qed.

Lemma set_power_returned_value_witness :
  snd (set_power Sample.power_code Sample.plug (APowerType OFF)
         (APowerOutputType (OUTPUT 1))
         (Sample.answering (JDict [("POWER1", JStr "OFF")])) []) = Ok false
  /\ false = false.
Proof.
  split; [reflexivity |].
  apply (set_power_returned_value Sample.power_code Sample.plug OFF
           (APowerOutputType (OUTPUT 1))
           (Sample.answering (JDict [("POWER1", JStr "OFF")])) [] false).
  reflexivity.
Defined.

(** ** What the getters and [get_status] hand back *)

(** [get_blink_count], [get_blink_time] and [get_friendly_name] return
    whatever value other than null the reply holds under the key, without
    looking at its type: a text under ["BlinkCount"] is returned as it
    is. *)
Theorem getters_return_stored_value :
  forall (self : TasmotaDevice) (g : getter) (dev : device) (log : list request)
         (d : dict) (text : string) (v : json),
    dev (cm_request self (getter_key g)) = Response 200 (Some (JDict d)) text ->
    lookup d (getter_key g) = Some v ->
    v <> JNull ->
    run_getter self g dev log = ((log ++ [cm_request self (getter_key g)])%list, Ok v).
Proof.
  intros self g dev log d text v Hdev Hkey Hv.
  rewrite run_getter_read_key, (read_key_reply _ _ _ _ _ _ Hdev), Hkey.
  destruct v; try reflexivity. now elim Hv.
Qed.

Lemma getters_return_stored_value_witness :
  run_getter Sample.plug BlinkCountGetter
    (Sample.answering (JDict [("Other", JInt 1); ("BlinkCount", JStr "ten")])) []
  = ([cm_request Sample.plug "BlinkCount"], Ok (JStr "ten")).
Proof.
  apply (getters_return_stored_value Sample.plug BlinkCountGetter
           (Sample.answering (JDict [("Other", JInt 1); ("BlinkCount", JStr "ten")])) []
           [("Other", JInt 1); ("BlinkCount", JStr "ten")] "").
  - reflexivity.
  - reflexivity.
  - discriminate.
Defined.

(** When the body is JSON but no object (a list, a text, a number, null),
    the three getters raise neither [CommandError] nor any other
    documented error: asking the reply for [get] fails with
    [AttributeError]. *)
Theorem getters_reply_not_a_mapping :
  forall (self : TasmotaDevice) (g : getter) (dev : device) (log : list request)
         (j : json) (text : string),
    dev (cm_request self (getter_key g)) = Response 200 (Some j) text ->
    (forall d, j <> JDict d) ->
    exists e,
      run_getter self g dev log = ((log ++ [cm_request self (getter_key g)])%list, Raise e)
      /\ e = PyError "AttributeError" ("'" ++ type_name j ++ "' object has no attribute 'get'")
      /\ documented_kind e = false.
Proof.
  intros self g dev log j text Hdev Hj.
  eexists. split; [| split; reflexivity].
  rewrite run_getter_read_key. unfold read_key. sent Hdev.
  destruct j; try reflexivity. now elim (Hj d).
Qed.

Lemma getters_reply_not_a_mapping_witness :
  exists e,
    run_getter Sample.plug BlinkTimeGetter (Sample.answering (JList [])) []
      = ([cm_request Sample.plug "BlinkTime"], Raise e)
    /\ e = PyError "AttributeError" "'list' object has no attribute 'get'"
    /\ documented_kind e = false.
Proof.
  apply (getters_reply_not_a_mapping Sample.plug BlinkTimeGetter
           (Sample.answering (JList [])) [] (JList []) "").
  - reflexivity.
  - discriminate.
Defined.

(** What [get_status] returns is never empty, null, a number or a text;
    when it is a mapping, its first key holds ["Status"]. *)
Theorem get_status_returns_checked_reply :
  forall (StatusType_value : StatusType -> string) (self : TasmotaDevice)
         (statusType : pyarg) (dev : device) (log : list request) (r : json),
    snd (get_status StatusType_value self statusType dev log) = Ok r ->
    match r with
    | JDict ((key, _) :: _) => str_in "Status" key = true
    | JList (_ :: _) => True
    | _ => False
    end.
Proof.
  intros sv self statusType dev log r.
  unfold get_status, async_def, try_except.
  destruct statusType as [ | | | k | ]; try discriminate.
  cbn [_isValidEnumValue negb]. unfold bind.
  destruct (send_raw_request self _ dev log) as [l [j | e]].
  - unfold next_iter, contains, ret, raise.
    destruct j as [ | | | | [ | c0 s0] | [ | x xs] | [ | [k0 v0] d0] ];
      try discriminate.
    + destruct (str_in "Status" (String c0 "")) eqn:E; simpl; [| discriminate].
      simpl in E. destruct c0 as [[] [] [] [] [] [] [] []]; discriminate.
    + destruct x; try discriminate;
        match goal with
        | |- context [if negb ?c then _ else _] =>
            destruct c; simpl; [now intros [= <-] | discriminate]
        end.
    + destruct (str_in "Status" k0) eqn:E; simpl; [| discriminate].
      now intros [= <-].
  - destruct e; try discriminate.
    simpl. now destruct (String.eqb cls "StopIteration").
Qed.

Lemma get_status_returns_checked_reply_witness :
  snd (get_status Sample.status_code Sample.plug (AStatusType NETWORK)
         (Sample.answering (JDict [("StatusNET", JDict [])])) [])
    = Ok (JDict [("StatusNET", JDict [])])
  /\ str_in "Status" "StatusNET" = true.
Proof.
  split; [reflexivity |].
  apply (get_status_returns_checked_reply Sample.status_code Sample.plug
           (AStatusType NETWORK)
           (Sample.answering (JDict [("StatusNET", JDict [])])) []
           (JDict [("StatusNET", JDict [])])).
  reflexivity.
Defined.
